(** * Razer Naga low-level driver (librazer/hw_naga.c)

    A shallow embedding of the protocol machinery of the Naga driver:
    the 90-byte command packet with its XOR checksum, the command
    channel over USB control transfers, the per-model command builders,
    the pending/commit state machine, the firmware probe and the attach
    sequence.

    C integers are [Z]; a conversion to a narrower or unsigned type is
    written out ([uint8], [uint16], [uint32]).  The packed
    [struct naga_command] is its 90-byte memory image, since the driver
    itself treats it as raw bytes (checksum over [(uint8_t * )cmd + 2],
    [memcpy] into [values], the control transfer of [sizeof( *cmd)] bytes).
    Arrays are lists read with [!!] and written with [<[i:=x]>]. *)

From Stdlib Require Import ZArith List Lia Bool String.
From stdpp Require Import base list.
Import ListNotations.
Open Scope Z_scope.

(** ** Integer conversions *)

Definition uint8 (z : Z) : Z := z mod 256.
Definition uint16 (z : Z) : Z := z mod 65536.
Definition uint32 (z : Z) : Z := z mod 4294967296.

(** ** Constants *)

(** errno.h (Linux). *)
Definition EIO : Z := 5.
Definition ENOMEM : Z := 12.
Definition EBUSY : Z := 16.
Definition ENODEV : Z := 19.
Definition EINVAL : Z := 22.

(** libusb.h: standard request codes used by the command channel. *)
Definition LIBUSB_REQUEST_CLEAR_FEATURE : Z := 1.
Definition LIBUSB_REQUEST_SET_CONFIGURATION : Z := 9.

(** Modelled from the spec: [enum razer_led_state] is declared in razer.h,
    which is not part of the sources at hand.  A LED state is one of
    off, on, unsupported; the enable flag of the LED command is 0/1, and
    the driver tests [if (priv->led_states[led_id])], so off is 0. *)
Definition RAZER_LED_OFF : Z := 0.
Definition RAZER_LED_ON : Z := 1.
Definition RAZER_LED_UNKNOWN : Z := 2.

(** Modelled from the spec: [enum razer_mouse_freq] is declared in razer.h.
    The enum ranges over unspecified, 125 Hz, 500 Hz and 1000 Hz; a C enum
    object can hold any other [int] as well. *)
Definition RAZER_MOUSE_FREQ_UNKNOWN : Z := 0.
Definition RAZER_MOUSE_FREQ_125HZ : Z := 125.
Definition RAZER_MOUSE_FREQ_500HZ : Z := 500.
Definition RAZER_MOUSE_FREQ_1000HZ : Z := 1000.

Definition NAGA_LED_SCROLL : nat := 0.
Definition NAGA_LED_LOGO : nat := 1.
Definition NAGA_LED_THUMB_GRID : nat := 2.
Definition NAGA_NR_LEDS : nat := 3.

Definition NAGA_5600_NR_DPIMAPPINGS : nat := 56.
Definition NAGA_8200_NR_DPIMAPPINGS : nat := 82.
Definition NAGA_NR_DPIMAPPINGS : nat := NAGA_8200_NR_DPIMAPPINGS.
Definition NAGA_NR_AXES : nat := 3.

Definition NAGA_FW_MAJOR (ver : Z) : Z := Z.land (Z.shiftr ver 8) 255.
Definition NAGA_FW_MINOR (ver : Z) : Z := Z.land ver 255.
Definition NAGA_FW (major minor : Z) : Z := Z.lor (Z.shiftl major 8) minor.

(** [naga_leds]: the two-byte protocol id of each LED. *)
Definition naga_leds_values (led_id : nat) : list Z :=
  match led_id with
  | 0%nat => [1; 1]
  | 1%nat => [1; 4]
  | 2%nat => [1; 5]
  | _ => []
  end.

(** ** The command packet *)

Abbreviation naga_command := (list Z).

Definition SIZEOF_naga_command : nat := 90.

(** Field offsets of the packed struct. *)
Definition OFF_status : nat := 0.
Definition OFF_padding0 : nat := 1.
Definition OFF_command : nat := 4.
Definition OFF_request : nat := 6.
Definition OFF_values : nat := 8.
Definition OFF_padding1 : nat := 13.
Definition OFF_checksum : nat := 88.
Definition OFF_padding2 : nat := 89.

Definition cpu_to_be16 (v : Z) : list Z :=
  [Z.land (Z.shiftr v 8) 255; Z.land v 255].

Definition be16_to_cpu (b : list Z) : Z :=
  match b with
  | [hi; lo] => Z.lor (Z.shiftl hi 8) lo
  | _ => 0
  end.

(** [memcpy (dst + off, src, length src)]. *)
Definition memcpy (off : nat) (src : list Z) (dst : list Z) : list Z :=
  list_inserts off src dst.

Definition cmd_status (cmd : naga_command) : Z := default 0 (cmd !! OFF_status).
Definition cmd_command (cmd : naga_command) : list Z := take 2 (drop OFF_command cmd).
Definition cmd_request (cmd : naga_command) : list Z := take 2 (drop OFF_request cmd).
Definition cmd_values (cmd : naga_command) : list Z := take 5 (drop OFF_values cmd).

Definition set_command (v : list Z) (cmd : naga_command) : naga_command :=
  memcpy OFF_command v cmd.
Definition set_request (v : list Z) (cmd : naga_command) : naga_command :=
  memcpy OFF_request v cmd.
Definition set_value (i : nat) (v : Z) (cmd : naga_command) : naga_command :=
  <[(OFF_values + i)%nat := uint8 v]> cmd.
Definition set_checksum (v : Z) (cmd : naga_command) : naga_command :=
  <[OFF_checksum := uint8 v]> cmd.

(** [naga_command_init]: [memset (cmd, 0, sizeof( *cmd))]. *)
Definition naga_command_init : naga_command := replicate SIZEOF_naga_command 0.

(** Modelled from the spec: [razer_xor8_checksum] lives in util.c, which is
    not part of the sources at hand; it XOR-accumulates [size] bytes of the
    buffer, starting from 0. *)
Definition razer_xor8_checksum (buffer : list Z) (size : nat) : Z :=
  fold_left (fun sum b => uint8 (Z.lxor sum b)) (take size buffer) 0.

(** ** The outside world

    The device is an oracle: the [n]-th control transfer issued on it is
    answered by [dev n], a return value of [libusb_control_transfer] (bytes
    transferred, or a negative libusb error) and, for a transfer towards the
    host, the bytes the device put into the buffer.  Everything the driver
    does to the outside is recorded, in order, in a trace. *)

Record usb_reply := { rep_ret : Z; rep_data : list Z }.

Inductive usb_dir := ENDPOINT_OUT | ENDPOINT_IN.

Inductive event :=
| EvSpacingEnter
| EvSpacingLeave
| EvTransfer (dir : usb_dir) (request command : Z) (buf : list Z)
| EvSleep (msec : Z)
| EvError (msg : string)
| EvClaim
| EvRelease
| EvFree.

Record world := { w_transfers : nat; w_trace : list event }.

Definition emit (e : event) (w : world) : world :=
  {| w_transfers := w_transfers w; w_trace := w_trace w ++ [e] |}.

(** The packets handed to the device, in order. *)
Fixpoint sent_packets (tr : list event) : list naga_command :=
  match tr with
  | [] => []
  | EvTransfer ENDPOINT_OUT _ _ buf :: tr' => buf :: sent_packets tr'
  | _ :: tr' => sent_packets tr'
  end.

(** Number of control transfers, either direction. *)
Fixpoint usb_calls (tr : list event) : nat :=
  match tr with
  | [] => 0%nat
  | EvTransfer _ _ _ _ :: tr' => S (usb_calls tr')
  | _ :: tr' => usb_calls tr'
  end.

(** The delays the driver slept, in order. *)
Fixpoint sleeps (tr : list event) : list Z :=
  match tr with
  | [] => []
  | EvSleep ms :: tr' => ms :: sleeps tr'
  | _ :: tr' => sleeps tr'
  end.

(** A computation on the world; [None] is a crash of the C program
    (dereference of a null or out-of-array pointer). *)
Definition M (A : Type) : Type := world -> option (A * world).

Definition ret {A} (a : A) : M A := fun w => Some (a, w).

Definition bind {A B} (c : M A) (k : A -> M B) : M B :=
  fun w => match c w with
           | Some (a, w') => k a w'
           | None => None
           end.

Definition crash {A} : M A := fun _ => None.

Definition lift {A} (o : option A) : M A :=
  match o with Some a => ret a | None => crash end.

Definition tell (e : event) : M unit := fun w => Some (tt, emit e w).

Notation "'let*' x ':=' c 'in' k" := (bind c (fun x => k))
  (at level 10, x pattern, c at level 100, k at level 200).
Notation "c ;; k" := (bind c (fun _ => k))
  (at level 100, k at level 200, right associativity).

(** ** Driver state *)

(** [struct razer_mouse_dpimapping], as far as the driver uses it:
    [res_dim0] is [res[RAZER_DIM_0]]. *)
Record razer_mouse_dpimapping := {
  nr : Z;
  res_dim0 : Z;
  dimension_mask : Z;
}.

(** A zero-filled mapping, as [zalloc] leaves it. *)
Definition dpimapping_zero : razer_mouse_dpimapping :=
  {| nr := 0; res_dim0 := 0; dimension_mask := 0 |}.

(** The two resolution builders a device can be bound to
    ([priv->command_init_resolution]). *)
Inductive resolution_init :=
| init_resolution_5600
| init_resolution_8200.

(** [struct razer_axis], as far as the driver reads it ([id] is unsigned). *)
Record razer_axis := { axis_id : nat }.

(** [struct naga_private].  A [struct razer_mouse_dpimapping *] is [None]
    for the null pointer and [Some i] for [&priv->dpimapping[i]]; the
    function pointer [command_init_resolution] is [None] while null.  The
    profile, the axes and the packet-spacing timer carry no state the
    operations below depend on: the profile is a table of the functions
    below, the axes have the ids 0, 1, 2, and the timer only delays. *)
Record naga_private := {
  fw_version : Z;
  led_states : list Z;
  frequency : Z;
  cur_dpimapping_X : option nat;
  cur_dpimapping_Y : option nat;
  dpimapping : list razer_mouse_dpimapping;
  nb_dpimappings : nat;
  command_init_resolution : option resolution_init;
  commit_pending : bool;
}.

(** [struct razer_mouse], as far as the driver uses it, with its
    [drv_data]; [suggest_fwup] is the flag [RAZER_MOUSEFLG_SUGGESTFWUP]. *)
Record razer_mouse := {
  claim_count : nat;
  suggest_fwup : bool;
  drv_data : naga_private;
}.

Definition set_led_state (i : nat) (s : Z) (p : naga_private) : naga_private :=
  {| fw_version := fw_version p;
     led_states := <[i := s]> (led_states p);
     frequency := frequency p;
     cur_dpimapping_X := cur_dpimapping_X p;
     cur_dpimapping_Y := cur_dpimapping_Y p;
     dpimapping := dpimapping p;
     nb_dpimappings := nb_dpimappings p;
     command_init_resolution := command_init_resolution p;
     commit_pending := commit_pending p |}.

Definition set_frequency (f : Z) (p : naga_private) : naga_private :=
  {| fw_version := fw_version p;
     led_states := led_states p;
     frequency := f;
     cur_dpimapping_X := cur_dpimapping_X p;
     cur_dpimapping_Y := cur_dpimapping_Y p;
     dpimapping := dpimapping p;
     nb_dpimappings := nb_dpimappings p;
     command_init_resolution := command_init_resolution p;
     commit_pending := commit_pending p |}.

Definition set_cur_dpimapping_X (d : option nat) (p : naga_private) : naga_private :=
  {| fw_version := fw_version p;
     led_states := led_states p;
     frequency := frequency p;
     cur_dpimapping_X := d;
     cur_dpimapping_Y := cur_dpimapping_Y p;
     dpimapping := dpimapping p;
     nb_dpimappings := nb_dpimappings p;
     command_init_resolution := command_init_resolution p;
     commit_pending := commit_pending p |}.

Definition set_cur_dpimapping_Y (d : option nat) (p : naga_private) : naga_private :=
  {| fw_version := fw_version p;
     led_states := led_states p;
     frequency := frequency p;
     cur_dpimapping_X := cur_dpimapping_X p;
     cur_dpimapping_Y := d;
     dpimapping := dpimapping p;
     nb_dpimappings := nb_dpimappings p;
     command_init_resolution := command_init_resolution p;
     commit_pending := commit_pending p |}.

Definition set_dpimapping_slot (i : nat) (d : razer_mouse_dpimapping)
    (p : naga_private) : naga_private :=
  {| fw_version := fw_version p;
     led_states := led_states p;
     frequency := frequency p;
     cur_dpimapping_X := cur_dpimapping_X p;
     cur_dpimapping_Y := cur_dpimapping_Y p;
     dpimapping := <[i := d]> (dpimapping p);
     nb_dpimappings := nb_dpimappings p;
     command_init_resolution := command_init_resolution p;
     commit_pending := commit_pending p |}.

Definition set_commit_pending (b : bool) (p : naga_private) : naga_private :=
  {| fw_version := fw_version p;
     led_states := led_states p;
     frequency := frequency p;
     cur_dpimapping_X := cur_dpimapping_X p;
     cur_dpimapping_Y := cur_dpimapping_Y p;
     dpimapping := dpimapping p;
     nb_dpimappings := nb_dpimappings p;
     command_init_resolution := command_init_resolution p;
     commit_pending := b |}.

Definition set_drv_data (p : naga_private) (m : razer_mouse) : razer_mouse :=
  {| claim_count := claim_count m; suggest_fwup := suggest_fwup m;
     drv_data := p |}.

Definition set_claim_count (c : nat) (m : razer_mouse) : razer_mouse :=
  {| claim_count := c; suggest_fwup := suggest_fwup m;
     drv_data := drv_data m |}.

(** ** Model command builders *)

(** [priv->cur_dpimapping_X->res[RAZER_DIM_0]]; [None] when the pointer is
    null or outside the array. *)
Definition cur_res (priv : naga_private) (ptr : option nat) : option Z :=
  match ptr with
  | None => None
  | Some i => res_dim0 <$> dpimapping priv !! i
  end.

Definition naga_command_init_resolution_5600 (priv : naga_private)
    : option naga_command :=
  match cur_res priv (cur_dpimapping_X priv),
        cur_res priv (cur_dpimapping_Y priv) with
  | Some rx, Some ry =>
      let cmd := naga_command_init in
      let cmd := set_command (cpu_to_be16 3) cmd in
      let cmd := set_request (cpu_to_be16 1025) cmd in
      let xres := uint32 ((uint32 (uint32 rx / 100) - 1) * 4) in
      let yres := uint32 ((uint32 (uint32 ry / 100) - 1) * 4) in
      let cmd := set_value 0 xres cmd in
      let cmd := set_value 1 yres cmd in
      Some cmd
  | _, _ => None
  end.

Definition naga_command_init_resolution_8200 (priv : naga_private)
    : option naga_command :=
  match cur_res priv (cur_dpimapping_X priv),
        cur_res priv (cur_dpimapping_Y priv) with
  | Some rx, Some ry =>
      let cmd := naga_command_init in
      let cmd := set_command (cpu_to_be16 7) cmd in
      let cmd := set_request (cpu_to_be16 1029) cmd in
      let xres := cpu_to_be16 rx in
      let yres := cpu_to_be16 ry in
      let cmd := memcpy (OFF_values + 1) xres cmd in
      let cmd := memcpy (OFF_values + 3) yres cmd in
      Some cmd
  | _, _ => None
  end.

(** The indirect call [priv->command_init_resolution (&cmd, priv)]. *)
Definition call_command_init_resolution (priv : naga_private)
    : option naga_command :=
  match command_init_resolution priv with
  | Some init_resolution_5600 => naga_command_init_resolution_5600 priv
  | Some init_resolution_8200 => naga_command_init_resolution_8200 priv
  | None => None
  end.

(** The LED command of [naga_do_commit]. *)
Definition naga_command_led (led_id : nat) (state : Z) : naga_command :=
  let cmd := naga_command_init in
  let cmd := set_command (cpu_to_be16 3) cmd in
  let cmd := set_request (cpu_to_be16 768) cmd in
  let cmd := memcpy OFF_values (naga_leds_values led_id) cmd in
  if negb (state =? 0) then set_value 2 1 cmd else cmd.

(** The switch of [naga_do_commit] over the frequency: the device code, or
    [None] for the [default] branch. *)
Definition naga_freq_code (freq : Z) : option Z :=
  if freq =? RAZER_MOUSE_FREQ_125HZ then Some 8
  else if freq =? RAZER_MOUSE_FREQ_500HZ then Some 2
  else if (freq =? RAZER_MOUSE_FREQ_1000HZ) || (freq =? RAZER_MOUSE_FREQ_UNKNOWN)
  then Some 1
  else None.

(** The frequency command of [naga_do_commit]. *)
Definition naga_command_freq (freq : Z) : naga_command :=
  let cmd := naga_command_init in
  let cmd := set_command (cpu_to_be16 1) cmd in
  let cmd := set_request (cpu_to_be16 5) cmd in
  set_value 0 freq cmd.

(** The firmware query of [naga_read_fw_ver]. *)
Definition naga_command_fw_ver : naga_command :=
  let cmd := naga_command_init in
  let cmd := set_command (cpu_to_be16 2) cmd in
  set_request (cpu_to_be16 129) cmd.

(** The LED commands of a flush, in the order of the LED ids: one for each
    LED whose state is not [RAZER_LED_UNKNOWN]. *)
Definition commit_led_commands (priv : naga_private) : list naga_command :=
  omap (fun led_id =>
          st ← led_states priv !! led_id;
          if st =? RAZER_LED_UNKNOWN then None
          else Some (naga_command_led led_id st))
       (seq 0 NAGA_NR_LEDS).

(** The commands of a flush, in order: the resolution command [rc], the
    LED commands, and the frequency command when the stored frequency has a
    device code. *)
Definition commit_plan (priv : naga_private) (rc : naga_command)
    : list naga_command :=
  rc :: commit_led_commands priv ++
  match naga_freq_code (frequency priv) with
  | Some f => [naga_command_freq f]
  | None => []
  end.

(** A state a flush can run on: the LED array has its three entries and the
    bound resolution builder finds both current mappings. *)
Definition priv_ready (priv : naga_private) : Prop :=
  length (led_states priv) = NAGA_NR_LEDS /\
  is_Some (call_command_init_resolution priv).

(** ** Vocabulary of the properties *)

Definition is_byte (b : Z) : Prop := 0 <= b < 256.

Definition all_bytes (buf : list Z) : bool :=
  forallb (fun b => (0 <=? b) && (b <? 256)) buf.

(** XOR of the bytes at the offsets [lo <= i < hi] of a buffer. *)
Definition xor_range (lo hi : nat) (buf : list Z) : Z :=
  foldr Z.lxor 0 (take (hi - lo) (drop lo buf)).

(** [w'] is [w] after the events [d]. *)
Definition extends (w w' : world) (d : list event) : Prop :=
  w_trace w' = w_trace w ++ d.

(** A computation only ever appends to the trace. *)
Definition extending {A} (c : M A) : Prop :=
  forall w a w', c w = Some (a, w') -> exists d, extends w w' d.

Section Driver.

(** The device behind the handle. *)
Variable dev : nat -> usb_reply.

(** [libusb_control_transfer] of [size] bytes.  An OUT transfer leaves the
    buffer alone; an IN transfer overwrites its head with the device's data. *)
Definition libusb_control_transfer (dir : usb_dir) (request command : Z)
    (buf : list Z) (size : nat) : M (Z * list Z) :=
  fun w =>
    let r := dev (w_transfers w) in
    let buf' := match dir with
                | ENDPOINT_OUT => buf
                | ENDPOINT_IN =>
                    let data := uint8 <$> take size (rep_data r) in
                    take (length buf) (data ++ drop (length data) buf)
                end in
    Some ((rep_ret r, buf'),
          {| w_transfers := S (w_transfers w);
             w_trace := w_trace w ++ [EvTransfer dir request command (take size buf)] |}).

Definition razer_event_spacing_enter : M unit := tell EvSpacingEnter.
Definition razer_event_spacing_leave : M unit := tell EvSpacingLeave.
Definition razer_msleep (msec : Z) : M unit := tell (EvSleep msec).
Definition razer_error (msg : string) : M unit := tell (EvError msg).

(** [err < 0 || (size_t)err != size] *)
Definition transfer_failed (err : Z) (size : nat) : bool :=
  (err <? 0) || negb (err =? Z.of_nat size).

Definition naga_usb_write (request command : Z) (buf : list Z) (size : nat)
    : M Z :=
  razer_event_spacing_enter ;;
  let* r := libusb_control_transfer ENDPOINT_OUT request command buf size in
  razer_event_spacing_leave ;;
  let err := fst r in
  if transfer_failed err size then
    razer_error "razer-naga: USB write failed" ;;
    ret err
  else ret 0.

(** The retry loop of [naga_usb_read]: [tries] iterations are left, [err]
    is the result of the previous transfer. *)
Fixpoint naga_usb_read_loop (tries : nat) (request command : Z)
    (err : Z) (buf : list Z) (size : nat) : M (Z * list Z) :=
  match tries with
  | O => ret (err, buf)
  | S tries' =>
      razer_event_spacing_enter ;;
      let* r := libusb_control_transfer ENDPOINT_IN request command buf size in
      razer_event_spacing_leave ;;
      let (err', buf') := r in
      if negb (transfer_failed err' size) then ret (err', buf')
      else naga_usb_read_loop tries' request command err' buf' size
  end.

Definition naga_usb_read (request command : Z) (buf : list Z) (size : nat)
    : M (Z * list Z) :=
  let* r := naga_usb_read_loop 3 request command 0 buf size in
  let (err, buf') := r in
  if transfer_failed err size then
    razer_error "razer-naga: USB read failed" ;;
    ret (err, buf')
  else ret (0, buf').

(** [sign]: the checksum assignment that opens [naga_send_command]. *)
Definition sign (cmd : naga_command) : naga_command :=
  set_checksum
    (razer_xor8_checksum (drop 2 cmd) (SIZEOF_naga_command - 4)) cmd.

(** Returns the error code and the buffer, which holds the device's answer
    once the read went through. *)
Definition naga_send_command (cmd : naga_command) : M (Z * naga_command) :=
  let cmd := sign cmd in
  let* err := naga_usb_write LIBUSB_REQUEST_SET_CONFIGURATION 768 cmd
                        SIZEOF_naga_command in
  if negb (err =? 0) then ret (err, cmd)
  else
    let* r := naga_usb_read LIBUSB_REQUEST_CLEAR_FEATURE 768 cmd
                       SIZEOF_naga_command in
    let (err, cmd) := r in
    if negb (err =? 0) then ret (err, cmd)
    else if negb (cmd_status cmd =? 2) && negb (cmd_status cmd =? 1)
            && negb (cmd_status cmd =? 0)
    then
      razer_error "razer-naga: Command failed" ;;
      ret (0, cmd)
    else ret (0, cmd).

(** One iteration of the probe loop of [naga_read_fw_ver], up to its
    test: the error of the exchange and the 16-bit value read from the
    answer. *)
Definition naga_fw_poke : M (Z * Z) :=
  let cmd := naga_command_fw_ver in
  let* r := naga_send_command cmd in
  let (err, cmd) := r in
  let be16 := take 2 (cmd_values cmd) in
  let ver := uint16 (be16_to_cpu be16) in
  ret (err, ver).

(** The test of the probe loop: [!err && (ver & 0xFF00) != 0]. *)
Definition fw_poke_ok (err ver : Z) : bool :=
  (err =? 0) && negb (Z.land ver 65280 =? 0).

Definition FW_ERROR : string := "razer-naga: Failed to read firmware version".

(** The probe loop of [naga_read_fw_ver], with [n] iterations left. *)
Fixpoint naga_read_fw_ver_loop (n : nat) : M Z :=
  match n with
  | O =>
      razer_error FW_ERROR ;;
      ret (- ENODEV)
  | S n' =>
      let* r := naga_fw_poke in
      let (err, ver) := r in
      if fw_poke_ok err ver then ret ver
      else
        razer_msleep 250 ;;
        naga_read_fw_ver_loop n'
  end.

Definition naga_read_fw_ver : M Z := naga_read_fw_ver_loop 5.

(** Reference run of the probe: the world after [k] attempts that all
    failed, each followed by its pause of 250 ms; [None] when one of them
    did not fail. *)
Fixpoint failed_pokes (k : nat) (w : world) : option world :=
  match k with
  | O => Some w
  | S k' =>
      match naga_fw_poke w with
      | Some ((err, ver), w1) =>
          if fw_poke_ok err ver then None
          else failed_pokes k' (emit (EvSleep 250) w1)
      | None => None
      end
  end.

(** Reference behaviour of a flush: the commands are exchanged with the
    device in order, and the first failing exchange ends the flush with its
    error. *)
Fixpoint send_in_order (cmds : list naga_command) : M Z :=
  match cmds with
  | [] => ret 0
  | cmd :: rest =>
      let* r := naga_send_command cmd in
      if fst r =? 0 then send_in_order rest else ret (fst r)
  end.

(** The LED loop of [naga_do_commit], over the LED ids still to visit. *)
Fixpoint naga_do_commit_leds (priv : naga_private) (led_ids : list nat)
    : M Z :=
  match led_ids with
  | [] => ret 0
  | led_id :: rest =>
      let* st := lift (led_states priv !! led_id) in
      if st =? RAZER_LED_UNKNOWN then naga_do_commit_leds priv rest
      else
        let* r := naga_send_command (naga_command_led led_id st) in
        let err := fst r in
        if negb (err =? 0) then ret err
        else naga_do_commit_leds priv rest
  end.

Definition naga_do_commit (priv : naga_private) : M Z :=
  let* cmd := lift (call_command_init_resolution priv) in
  let* r := naga_send_command cmd in
  let err := fst r in
  if negb (err =? 0) then ret err
  else
    let* err := naga_do_commit_leds priv (seq 0 NAGA_NR_LEDS) in
    if negb (err =? 0) then ret err
    else
      match naga_freq_code (frequency priv) with
      | None => ret (- EINVAL)
      | Some freq =>
          let* r := naga_send_command (naga_command_freq freq) in
          let err := fst r in
          if negb (err =? 0) then ret err
          else ret 0
      end.

Definition naga_get_fw_version (m : razer_mouse) : Z :=
  fw_version (drv_data m).

Definition naga_commit (m : razer_mouse) (force : bool) : M (Z * razer_mouse) :=
  let priv := drv_data m in
  if (claim_count m =? 0)%nat then ret (- EBUSY, m)
  else if commit_pending priv || force then
    let* err := naga_do_commit priv in
    if err =? 0 then ret (err, set_drv_data (set_commit_pending false priv) m)
    else ret (err, m)
  else ret (0, m).

(** [led_id] is the [id] of the [struct razer_led] handed in (unsigned).
    [None] is a read outside [led_states]. *)
Definition naga_led_toggle (m : razer_mouse) (led_id : nat) (new_state : Z)
    : option (Z * razer_mouse) :=
  let priv := drv_data m in
  if (NAGA_NR_LEDS <=? led_id)%nat then Some (- EINVAL, m)
  else if negb (new_state =? RAZER_LED_OFF) && negb (new_state =? RAZER_LED_ON)
  then Some (- EINVAL, m)
  else
    st ← led_states priv !! led_id;
    if st =? RAZER_LED_UNKNOWN then Some (- EINVAL, m)
    else if (claim_count m =? 0)%nat then Some (- EBUSY, m)
    else
      let priv := set_led_state led_id new_state priv in
      let priv := set_commit_pending true priv in
      Some (0, set_drv_data priv m).

Definition naga_get_freq (m : razer_mouse) : Z := frequency (drv_data m).

Definition naga_set_freq (m : razer_mouse) (freq : Z) : Z * razer_mouse :=
  let priv := drv_data m in
  if (claim_count m =? 0)%nat then (- EBUSY, m)
  else
    let priv := set_frequency freq priv in
    let priv := set_commit_pending true priv in
    (0, set_drv_data priv m).

(** [axis] is [None] for a null pointer.  [priv->axes[0]] has id 0. *)
Definition naga_get_dpimapping (m : razer_mouse) (axis : option razer_axis)
    : option nat :=
  let priv := drv_data m in
  let id := match axis with Some a => axis_id a | None => 0%nat end in
  if (id =? 0)%nat then cur_dpimapping_X priv
  else if (id =? 1)%nat then cur_dpimapping_Y priv
  else None.

Definition naga_set_dpimapping (m : razer_mouse) (axis : option razer_axis)
    (d : option nat) : Z * razer_mouse :=
  let priv := drv_data m in
  if (claim_count m =? 0)%nat then (- EBUSY, m)
  else
    match axis with
    | Some a =>
        if (NAGA_NR_AXES <=? axis_id a)%nat then (- EINVAL, m)
        else if (axis_id a =? 0)%nat then
          (0, set_drv_data
                (set_commit_pending true (set_cur_dpimapping_X d priv)) m)
        else if (axis_id a =? 1)%nat then
          (0, set_drv_data
                (set_commit_pending true (set_cur_dpimapping_Y d priv)) m)
        else (- EINVAL, m)
    | None =>
        let priv := set_cur_dpimapping_X d priv in
        let priv := set_cur_dpimapping_Y d priv in
        (0, set_drv_data (set_commit_pending true priv) m)
    end.

(** The operations of the abstraction surface that stage or flush
    settings. *)
Inductive naga_op :=
| OpCommit (force : bool)
| OpLedToggle (led_id : nat) (new_state : Z)
| OpSetFreq (freq : Z)
| OpSetDpimapping (axis : option razer_axis) (d : option nat).

Definition run_op (op : naga_op) (m : razer_mouse) : M (Z * razer_mouse) :=
  match op with
  | OpCommit force => naga_commit m force
  | OpLedToggle led_id new_state => lift (naga_led_toggle m led_id new_state)
  | OpSetFreq freq => ret (naga_set_freq m freq)
  | OpSetDpimapping axis d => ret (naga_set_dpimapping m axis d)
  end.

Fixpoint run_ops (ops : list naga_op) (m : razer_mouse) : M razer_mouse :=
  match ops with
  | [] => ret m
  | op :: rest =>
      let* r := run_op op m in
      run_ops rest (snd r)
  end.

(** The argument checks of [naga_led_toggle] that come before its claim
    check: a known LED id, a state that is on or off, a LED the model
    has. *)
Definition led_toggle_args_ok (m : razer_mouse) (led_id : nat) (new_state : Z)
    : bool :=
  (led_id <? NAGA_NR_LEDS)%nat
  && ((new_state =? RAZER_LED_OFF) || (new_state =? RAZER_LED_ON))
  && match led_states (drv_data m) !! led_id with
     | Some st => negb (st =? RAZER_LED_UNKNOWN)
     | None => false
     end.

(** [list[i] = (i + 1) * 100] for every slot of the device. *)
Definition naga_supported_resolutions (m : razer_mouse) : list Z :=
  (fun i => (Z.of_nat i + 1) * 100) <$> seq 0 (nb_dpimappings (drv_data m)).

(** ** Attach *)

(** What the environment decides during attach: the device descriptor,
    whether [zalloc] succeeds, and the results of registering the interface
    and of claiming the device. *)
Record attach_env := {
  desc_err : Z;
  idProduct : Z;
  zalloc_ok : bool;
  add_used_interface_err : Z;
  claim_err : Z;
}.

(** Modelled from the spec: [m->claim] and [m->release] are installed by
    librazer.c, which is not part of the sources at hand.  The handle
    carries an exclusive-claim counter: a successful claim takes one
    reference, a release gives one back. *)
Definition mouse_claim (err : Z) (m : razer_mouse) : M (Z * razer_mouse) :=
  if err =? 0 then
    tell EvClaim ;;
    ret (0, set_claim_count (S (claim_count m)) m)
  else ret (err, m).

Definition mouse_release (m : razer_mouse) : M razer_mouse :=
  tell EvRelease ;;
  ret (if (claim_count m =? 0)%nat then m
       else set_claim_count (claim_count m - 1)%nat m).

(** [zalloc (sizeof (struct naga_private))]: every field zero. *)
Definition naga_private_zero : naga_private :=
  {| fw_version := 0;
     led_states := replicate NAGA_NR_LEDS 0;
     frequency := 0;
     cur_dpimapping_X := None;
     cur_dpimapping_Y := None;
     dpimapping := replicate NAGA_NR_DPIMAPPINGS dpimapping_zero;
     nb_dpimappings := 0;
     command_init_resolution := None;
     commit_pending := false |}.

Definition set_fw_version (v : Z) (p : naga_private) : naga_private :=
  {| fw_version := v;
     led_states := led_states p;
     frequency := frequency p;
     cur_dpimapping_X := cur_dpimapping_X p;
     cur_dpimapping_Y := cur_dpimapping_Y p;
     dpimapping := dpimapping p;
     nb_dpimappings := nb_dpimappings p;
     command_init_resolution := command_init_resolution p;
     commit_pending := commit_pending p |}.

Definition set_variant (n : nat) (f : resolution_init) (p : naga_private)
    : naga_private :=
  {| fw_version := fw_version p;
     led_states := led_states p;
     frequency := frequency p;
     cur_dpimapping_X := cur_dpimapping_X p;
     cur_dpimapping_Y := cur_dpimapping_Y p;
     dpimapping := dpimapping p;
     nb_dpimappings := n;
     command_init_resolution := Some f;
     commit_pending := commit_pending p |}.

Definition set_suggest_fwup (m : razer_mouse) : razer_mouse :=
  {| claim_count := claim_count m; suggest_fwup := true;
     drv_data := drv_data m |}.

(** The loop of [razer_naga_init] that fills the mapping table, over the
    slot indices still to visit. *)
Fixpoint naga_init_dpimappings (slots : list nat) (priv : naga_private)
    : naga_private :=
  match slots with
  | [] => priv
  | i :: rest =>
      let res := (Z.of_nat i + 1) * 100 in
      let priv :=
        set_dpimapping_slot i
          {| nr := Z.of_nat i; res_dim0 := res; dimension_mask := 1 |} priv in
      let priv :=
        if res =? 1000 then
          set_cur_dpimapping_Y (Some i) (set_cur_dpimapping_X (Some i) priv)
        else priv in
      naga_init_dpimappings rest priv
  end.

Section Attach.

(** The USB product ids of hw_naga.h, which is not part of the sources at
    hand. *)
Variables RAZER_NAGA_PID_CLASSIC RAZER_NAGA_PID_EPIC RAZER_NAGA_PID_2012
          RAZER_NAGA_PID_HEX RAZER_NAGA_PID_HEX_V2 RAZER_NAGA_PID_2014 : Z.

(** The [switch] over the product id that picks the display name; the
    [default] label shares the branch of the Classic. *)
Definition naga_model (pid : Z) : string :=
  if pid =? RAZER_NAGA_PID_CLASSIC then "Naga"
  else if pid =? RAZER_NAGA_PID_EPIC then "Naga Epic"
  else if pid =? RAZER_NAGA_PID_2012 then "Naga 2012"
  else if pid =? RAZER_NAGA_PID_HEX then "Naga Hex"
  else if pid =? RAZER_NAGA_PID_HEX_V2 then "Naga Hex v2"
  else if pid =? RAZER_NAGA_PID_2014 then "Naga 2014"
  else "Naga".

(** The settings [razer_naga_init] stages between the firmware probe and
    the initial commit. *)
Definition naga_init_defaults (pid : Z) (priv : naga_private) : naga_private :=
  let priv := set_frequency RAZER_MOUSE_FREQ_1000HZ priv in
  let priv := set_led_state NAGA_LED_SCROLL RAZER_LED_ON priv in
  let priv := set_led_state NAGA_LED_LOGO RAZER_LED_ON priv in
  let priv :=
    if pid =? RAZER_NAGA_PID_2014 then
      set_led_state NAGA_LED_THUMB_GRID RAZER_LED_ON priv
    else set_led_state NAGA_LED_THUMB_GRID RAZER_LED_UNKNOWN priv in
  let priv :=
    if pid =? RAZER_NAGA_PID_2014 then
      set_variant NAGA_8200_NR_DPIMAPPINGS init_resolution_8200 priv
    else set_variant NAGA_5600_NR_DPIMAPPINGS init_resolution_5600 priv in
  naga_init_dpimappings (seq 0 (nb_dpimappings priv)) priv.

(** [razer_naga_init].  The assignments of the mouse type, of the id string
    and of the function pointers are left out; [free (priv)] is an event, the
    dangling [drv_data] keeps its last contents. *)
Definition razer_naga_init (env : attach_env) (m : razer_mouse)
    : M (Z * razer_mouse) :=
  if negb (desc_err env =? 0) then
    razer_error "hw_naga: Failed to get device descriptor" ;;
    ret (- EIO, m)
  else if negb (zalloc_ok env) then ret (- ENOMEM, m)
  else
    let priv := naga_private_zero in
    let m := set_drv_data priv m in
    if negb (add_used_interface_err env =? 0) then
      tell EvFree ;;
      ret (add_used_interface_err env, m)
    else
      let* r := mouse_claim (claim_err env) m in
      let (err, m) := r in
      if negb (err =? 0) then
        razer_error "hw_naga: Failed to claim device" ;;
        tell EvFree ;;
        ret (err, m)
      else
        let* fwver := naga_read_fw_ver in
        if fwver <? 0 then
          let* m := mouse_release m in
          tell EvFree ;;
          ret (fwver, m)
        else
          let priv := set_fw_version (uint16 fwver) priv in
          let* m :=
            if (idProduct env =? RAZER_NAGA_PID_EPIC)
               && (fw_version priv <? NAGA_FW 1 4)
            then
              razer_error "hw_naga: The firmware version of this Naga has known bugs" ;;
              ret (set_suggest_fwup m)
            else ret m in
          let priv := naga_init_defaults (idProduct env) priv in
          let m := set_drv_data priv m in
          let* err := naga_do_commit priv in
          if negb (err =? 0) then
            razer_error "hw_naga: Failed to commit initial settings" ;;
            let* m := mouse_release m in
            tell EvFree ;;
            ret (err, m)
          else
            let* m := mouse_release m in
            ret (0, m).

End Attach.

End Driver.

(** ** Enumerations of the abstraction surface *)

(** The display name of each LED in [naga_leds]. *)
Definition naga_leds_name (led_id : nat) : string :=
  match led_id with
  | 0%nat => "Scrollwheel"
  | 1%nat => "GlowingLogo"
  | 2%nat => "ThumbGrid"
  | _ => ""
  end.

(** [struct razer_led], as [naga_get_leds] fills it; the [next] pointers
    are the order of the list. *)
Record razer_led := {
  led_name : string;
  led_id_of : nat;
  led_state : Z;
}.

(** The loop of [naga_get_leds] over the LED ids still to visit.
    [zalloc_ok k] tells whether the allocation made after [k] successful
    ones succeeds; [nb_leds] and [leds_list] are the counter and the list
    head of the C function.  A new node is linked in front of the list.
    [None] is a read outside [led_states]. *)
Fixpoint naga_get_leds_loop (priv : naga_private) (zalloc_ok : nat -> bool)
    (led_ids : list nat) (nb_leds : nat) (leds_list : list razer_led)
    : option (Z * list razer_led) :=
  match led_ids with
  | [] => Some (Z.of_nat nb_leds, leds_list)
  | led_id :: rest =>
      st ← led_states priv !! led_id;
      if RAZER_LED_UNKNOWN =? st then
        naga_get_leds_loop priv zalloc_ok rest nb_leds leds_list
      else if negb (zalloc_ok nb_leds) then Some (- ENOMEM, leds_list)
      else
        let led := {| led_name := naga_leds_name led_id;
                      led_id_of := led_id;
                      led_state := st |} in
        naga_get_leds_loop priv zalloc_ok rest (S nb_leds) (led :: leds_list)
  end.

Definition naga_get_leds (m : razer_mouse) (zalloc_ok : nat -> bool)
    : option (Z * list razer_led) :=
  naga_get_leds_loop (drv_data m) zalloc_ok (seq 0 NAGA_NR_LEDS) 0 [].

(** [naga_supported_freqs]: the count and the list, or [-ENOMEM]. *)
Definition naga_supported_freqs (zalloc_ok : bool) : Z * list Z :=
  if negb zalloc_ok then (- ENOMEM, [])
  else (3, [RAZER_MOUSE_FREQ_125HZ; RAZER_MOUSE_FREQ_500HZ;
            RAZER_MOUSE_FREQ_1000HZ]).

(** The LEDs a model has, in the order of their ids, with their states. *)
Definition supported_leds (priv : naga_private) : list razer_led :=
  omap (fun led_id =>
          st ← led_states priv !! led_id;
          if st =? RAZER_LED_UNKNOWN then None
          else Some {| led_name := naga_leds_name led_id;
                       led_id_of := led_id;
                       led_state := st |})
       (seq 0 NAGA_NR_LEDS).

(** Whether the [i]-th control transfer issued from the world [w] on moves
    exactly [size] bytes. *)
Definition read_ok (dev : nat -> usb_reply) (size : nat) (w : world) (i : nat)
    : bool :=
  negb (transfer_failed (rep_ret (dev (w_transfers w + i)%nat)) size).

(** ** Sample devices and states *)

(** A device that completes every transfer and answers the firmware query
    with version 1.04. *)
Definition sample_dev_ok (n : nat) : usb_reply :=
  {| rep_ret := 90; rep_data := [0; 0; 0; 0; 0; 2; 0; 129; 1; 4] |}.

(** A device on which every transfer times out (LIBUSB_ERROR_TIMEOUT). *)
Definition sample_dev_dead (n : nat) : usb_reply :=
  {| rep_ret := -7; rep_data := [] |}.


(** A device that completes every transfer and answers with a status byte
    outside 0, 1, 2. *)
Definition sample_dev_odd_status (n : nat) : usb_reply :=
  {| rep_ret := 90; rep_data := 255 :: replicate 89 0 |}.

Definition ADVISORY : string :=
  "hw_naga: The firmware version of this Naga has known bugs".

(** A device like [sample_dev_ok] that reports firmware 1.02. *)
Definition sample_dev_old (n : nat) : usb_reply :=
  {| rep_ret := 90; rep_data := [0; 0; 0; 0; 0; 2; 0; 129; 1; 2] |}.

Definition world0 : world := {| w_transfers := 0; w_trace := [] |}.

(** The product ids as hw_naga.h of the upstream driver gives them. *)
Definition SAMPLE_PID_CLASSIC : Z := 21.
Definition SAMPLE_PID_EPIC : Z := 31.
Definition SAMPLE_PID_2012 : Z := 46.
Definition SAMPLE_PID_HEX : Z := 54.
Definition SAMPLE_PID_2014 : Z := 64.
Definition SAMPLE_PID_HEX_V2 : Z := 65.

(** The driver state right after attach, for a product id. *)
Definition sample_priv (pid : Z) : naga_private :=
  naga_init_defaults SAMPLE_PID_2014 pid (set_fw_version 260 naga_private_zero).

Definition sample_mouse (claims : nat) (priv : naga_private) : razer_mouse :=
  {| claim_count := claims; suggest_fwup := false; drv_data := priv |}.

Definition sample_env (pid : Z) : attach_env :=
  {| desc_err := 0; idProduct := pid; zalloc_ok := true;
     add_used_interface_err := 0; claim_err := 0 |}.

(** * Properties *)

(** ** Bytes and the checksum *)

Lemma uint8_lxor (a b : Z) : uint8 (Z.lxor a b) = Z.lxor (uint8 a) (uint8 b).
Proof.
  unfold uint8. change 256 with (2 ^ 8).
  rewrite <- !Z.land_ones by lia.
  apply Z.bits_inj'. intros n Hn.
  rewrite Z.lxor_spec, !Z.land_spec, Z.lxor_spec.
  destruct (Z.testbit (Z.ones 8) n); now rewrite ?andb_true_r, ?andb_false_r.
Qed.

Lemma uint8_id (a : Z) : is_byte a -> uint8 a = a.
Proof. intros H. unfold uint8. apply Z.mod_small. exact H. Qed.

Lemma uint8_is_byte (a : Z) : is_byte (uint8 a).
Proof. unfold is_byte, uint8. apply Z.mod_pos_bound. lia. Qed.

Lemma lxor_is_byte (a b : Z) : is_byte a -> is_byte b -> is_byte (Z.lxor a b).
Proof.
  intros Ha Hb. rewrite <- (uint8_id a Ha), <- (uint8_id b Hb), <- uint8_lxor.
  apply uint8_is_byte.
Qed.

Lemma fold_xor8 (l : list Z) (acc : Z) :
  is_byte acc -> Forall is_byte l ->
  fold_left (fun sum b => uint8 (Z.lxor sum b)) l acc = Z.lxor acc (foldr Z.lxor 0 l).
Proof.
  intros Hacc Hl. revert acc Hacc.
  induction Hl as [|b l Hb Hl IH]; intros acc Hacc; simpl.
  - now rewrite Z.lxor_0_r.
  - rewrite IH.
    + rewrite uint8_id by (apply lxor_is_byte; assumption).
      now rewrite Z.lxor_assoc.
    + apply uint8_is_byte.
Qed.

(** ** The command channel *)

Lemma sent_packets_app (a b : list event) :
  sent_packets (a ++ b) = sent_packets a ++ sent_packets b.
Proof.
  induction a as [|e a IH]; simpl; [reflexivity|].
  destruct e as [| |[] ? ? ?| | | | |]; simpl; now rewrite IH.
Qed.

Lemma sleeps_app (a b : list event) : sleeps (a ++ b) = sleeps a ++ sleeps b.
Proof.
  induction a as [|e a IH]; simpl; [reflexivity|].
  destruct e; simpl; now rewrite IH.
Qed.

Lemma usb_calls_app (a b : list event) :
  usb_calls (a ++ b) = (usb_calls a + usb_calls b)%nat.
Proof.
  induction a as [|e a IH]; simpl; [reflexivity|].
  destruct e; simpl; now rewrite IH.
Qed.

Lemma extends_refl w : extends w w [].
Proof. unfold extends. now rewrite app_nil_r. Qed.

Lemma extends_trans w1 w2 w3 d1 d2 :
  extends w1 w2 d1 -> extends w2 w3 d2 -> extends w1 w3 (d1 ++ d2).
Proof. unfold extends. intros H1 H2. now rewrite H2, H1, app_assoc. Qed.

Lemma bind_Some {A B} (c : M A) (k : A -> M B) w r :
  bind c k w = Some r <-> exists a w1, c w = Some (a, w1) /\ k a w1 = Some r.
Proof.
  unfold bind. split.
  - destruct (c w) as [[a w1]|]; [|discriminate]. intros H. now exists a, w1.
  - intros (a & w1 & -> & H). exact H.
Qed.

Section ChannelFacts.
Variable dev : nat -> usb_reply.

Lemma naga_usb_write_run request command buf size w :
  exists err w' d,
    naga_usb_write dev request command buf size w = Some (err, w') /\
    extends w w' d /\
    sent_packets d = [take size buf] /\ sleeps d = [] /\ usb_calls d = 1%nat.
Proof.
  unfold naga_usb_write, bind, razer_event_spacing_enter,
    razer_event_spacing_leave, razer_error, tell, emit,
    libusb_control_transfer, ret, extends; simpl.
  destruct (transfer_failed _ _); simpl;
    (do 3 eexists; split; [reflexivity|]; simpl;
     rewrite <- !app_assoc; simpl; split; [reflexivity|]; now simpl).
Qed.

Lemma naga_usb_read_loop_run tries request command err buf size w :
  exists err' buf' w' d,
    naga_usb_read_loop dev tries request command err buf size w
      = Some ((err', buf'), w') /\
    extends w w' d /\
    sent_packets d = [] /\ sleeps d = [] /\ (usb_calls d <= tries)%nat.
Proof.
  revert err buf w. induction tries as [|tries IH]; intros err buf w.
  - exists err, buf, w, []. simpl. repeat split; auto using extends_refl.
  - cbn [naga_usb_read_loop].
    unfold bind at 1. unfold razer_event_spacing_enter, tell.
    unfold bind at 1. unfold libusb_control_transfer at 1.
    unfold bind at 1. unfold razer_event_spacing_leave, tell.
    cbv beta iota.
    match goal with |- context [transfer_failed ?e ?s] =>
      destruct (transfer_failed e s) end; cbn [negb].
    + match goal with |- context [naga_usb_read_loop dev tries ?r ?c ?e ?b ?s ?w1] =>
        destruct (IH e b w1) as (err' & buf' & w' & d & Hrun & Hext & Hs & Hsl & Hc)
      end.
      do 4 eexists. split; [exact Hrun|].
      unfold extends, emit in *; simpl in *.
      rewrite Hext, <- !app_assoc. split; [reflexivity|].
      simpl. rewrite Hs, Hsl. repeat split; lia.
    + do 4 eexists. split; [reflexivity|].
      unfold extends, emit; simpl. rewrite <- !app_assoc.
      split; [reflexivity|]. simpl. repeat split; lia.
Qed.

Lemma naga_usb_read_run request command buf size w :
  exists err buf' w' d,
    naga_usb_read dev request command buf size w = Some ((err, buf'), w') /\
    extends w w' d /\
    sent_packets d = [] /\ sleeps d = [] /\ (usb_calls d <= 3)%nat.
Proof.
  unfold naga_usb_read.
  destruct (naga_usb_read_loop_run 3 request command 0 buf size w)
    as (err & buf' & w' & d & Hrun & Hext & Hs & Hsl & Hc).
  unfold bind. rewrite Hrun.
  destruct (transfer_failed err size).
  - unfold razer_error, tell, ret. do 4 eexists. split; [reflexivity|].
    unfold extends, emit in *; simpl. rewrite Hext, <- app_assoc.
    split; [reflexivity|]. rewrite sent_packets_app, sleeps_app, usb_calls_app.
    rewrite Hs, Hsl. simpl. repeat split; lia.
  - unfold ret. do 4 eexists. split; [reflexivity|].
    split; [exact Hext|]. tauto.
Qed.

Lemma naga_send_command_run cmd w :
  exists err cmd' w' d,
    naga_send_command dev cmd w = Some ((err, cmd'), w') /\
    extends w w' d /\
    sent_packets d = [take SIZEOF_naga_command (sign cmd)] /\
    sleeps d = [] /\ (1 <= usb_calls d <= 4)%nat.
Proof.
  unfold naga_send_command.
  destruct (naga_usb_write_run LIBUSB_REQUEST_SET_CONFIGURATION 768 (sign cmd)
              SIZEOF_naga_command w)
    as (err & w1 & d1 & Hrun1 & Hext1 & Hs1 & Hsl1 & Hc1).
  unfold bind at 1. rewrite Hrun1.
  destruct (err =? 0); cbn [negb].
  - destruct (naga_usb_read_run LIBUSB_REQUEST_CLEAR_FEATURE 768 (sign cmd)
                SIZEOF_naga_command w1)
      as (err2 & buf2 & w2 & d2 & Hrun2 & Hext2 & Hs2 & Hsl2 & Hc2).
    unfold bind at 1. rewrite Hrun2.
    pose proof (extends_trans _ _ _ _ _ Hext1 Hext2) as Hext.
    destruct (err2 =? 0); cbn [negb].
    + destruct (_ && _).
      * unfold bind, razer_error, tell, ret.
        do 4 eexists. split; [reflexivity|].
        unfold extends, emit in *; simpl. rewrite Hext, <- app_assoc.
        split; [reflexivity|].
        rewrite !sent_packets_app, !sleeps_app, !usb_calls_app.
        rewrite Hs1, Hs2, Hsl1, Hsl2. simpl. repeat split; lia.
      * unfold ret. do 4 eexists. split; [reflexivity|]. split; [exact Hext|].
        rewrite !sent_packets_app, !sleeps_app, !usb_calls_app.
        rewrite Hs1, Hs2, Hsl1, Hsl2. simpl. repeat split; lia.
    + unfold ret. do 4 eexists. split; [reflexivity|]. split; [exact Hext|].
      rewrite !sent_packets_app, !sleeps_app, !usb_calls_app.
      rewrite Hs1, Hs2, Hsl1, Hsl2. simpl. repeat split; lia.
  - unfold ret. do 4 eexists. split; [reflexivity|]. split; [exact Hext1|].
    rewrite Hs1, Hsl1. repeat split; lia.
Qed.

End ChannelFacts.

(** ** The checksum of a signed packet *)

Lemma razer_xor8_checksum_xor (buf : list Z) (size : nat) :
  Forall is_byte buf ->
  razer_xor8_checksum buf size = foldr Z.lxor 0 (take size buf) /\
  is_byte (razer_xor8_checksum buf size).
Proof.
  intros Hb. unfold razer_xor8_checksum.
  assert (Forall is_byte (take size buf)) as Ht by now apply Forall_take.
  rewrite fold_xor8; [|unfold is_byte; lia|exact Ht].
  rewrite Z.lxor_0_l. split; [reflexivity|].
  clear Hb. induction Ht as [|b l Hb Hl IH]; simpl.
  - unfold is_byte; lia.
  - now apply lxor_is_byte.
Qed.

Lemma sign_length (cmd : naga_command) : length (sign cmd) = length cmd.
Proof. unfold sign, set_checksum. apply length_insert. Qed.



Lemma all_bytes_spec (buf : list Z) : all_bytes buf = true -> Forall is_byte buf.
Proof.
  unfold all_bytes. rewrite forallb_forall, Forall_forall.
  intros H b Hb. apply list_elem_of_In in Hb. apply H in Hb.
  unfold is_byte. lia.
Qed.



(** In the packets the driver builds the padding is zero, so there the
    checksum is the XOR of the offsets 2 through 85 as well. *)
Lemma xor_range_zero_tail (cmd : naga_command) :
  cmd !! 86%nat = Some 0 -> cmd !! 87%nat = Some 0 ->
  xor_range 2 88 cmd = xor_range 2 86 cmd.
Proof.
  intros H86 H87. unfold xor_range.
  change (88 - 2)%nat with 86%nat. change (86 - 2)%nat with 84%nat.
  rewrite (take_S_r (drop 2 cmd) 85 0) by (rewrite lookup_drop; exact H87).
  rewrite (take_S_r (drop 2 cmd) 84 0) by (rewrite lookup_drop; exact H86).
  rewrite <- app_assoc, foldr_app. reflexivity.
Qed.


Lemma cpu_to_be16_bytes (x : Z) :
  0 <= x < 65536 -> cpu_to_be16 x = [x / 256; x mod 256].
Proof.
  intros Hx. unfold cpu_to_be16.
  change 255 with (Z.ones 8). rewrite !Z.land_ones by lia.
  rewrite Z.shiftr_div_pow2 by lia. change (2 ^ 8) with 256.
  f_equal. apply Z.mod_small.
  split; [apply Z.div_pos; lia | apply Z.div_lt_upper_bound; lia].
Qed.

Lemma be16_to_cpu_bytes (hi lo : Z) :
  0 <= hi -> 0 <= lo < 256 -> be16_to_cpu [hi; lo] = hi * 256 + lo.
Proof.
  intros Hhi Hlo. unfold be16_to_cpu.
  rewrite Z.shiftl_mul_pow2 by lia. change (2 ^ 8) with 256.
  symmetry. apply Z.add_nocarry_lor.
  apply Z.bits_inj'. intros n Hn.
  rewrite Z.land_spec, Z.bits_0.
  destruct (Z.lt_ge_cases n 8) as [Hlt|Hge].
  - change 256 with (2 ^ 8). rewrite Z.mul_pow2_bits_low by lia. reflexivity.
  - replace (Z.testbit lo n) with false; [apply andb_false_r|].
    symmetry. destruct (Z.eq_dec lo 0) as [->|Hne]; [apply Z.bits_0|].
    apply Z.bits_above_log2; [lia|].
    apply Z.log2_lt_pow2; [lia|].
    apply Z.lt_le_trans with (2 ^ 8); [change (2 ^ 8) with 256; lia|].
    apply Z.pow_le_mono_r; lia.
Qed.

Lemma be16_roundtrip (x : Z) :
  0 <= x < 65536 -> be16_to_cpu (cpu_to_be16 x) = x.
Proof.
  intros Hx. rewrite cpu_to_be16_bytes by exact Hx.
  rewrite be16_to_cpu_bytes.
  - pose proof (Z.div_mod x 256). lia.
  - apply Z.div_pos; lia.
  - apply Z.mod_pos_bound. lia.
Qed.


Lemma values_5600 (c r : list Z) (a b : Z) :
  length c = 2%nat -> length r = 2%nat ->
  cmd_values (set_value 1 b (set_value 0 a
                (set_request r (set_command c naga_command_init))))
  = [uint8 a; uint8 b; 0; 0; 0].
Proof.
  intros Hc Hr.
  destruct c as [|c1 [|c2 [|? ?]]]; try discriminate.
  destruct r as [|r1 [|r2 [|? ?]]]; try discriminate.
  reflexivity.
Qed.

Lemma values_8200 (c r : list Z) (x1 x2 y1 y2 : Z) :
  length c = 2%nat -> length r = 2%nat ->
  cmd_values (memcpy (OFF_values + 3) [y1; y2] (memcpy (OFF_values + 1) [x1; x2]
                (set_request r (set_command c naga_command_init))))
  = [0; x1; x2; y1; y2].
Proof.
  intros Hc Hr.
  destruct c as [|c1 [|c2 [|? ?]]]; try discriminate.
  destruct r as [|r1 [|r2 [|? ?]]]; try discriminate.
  reflexivity.
Qed.



(** ** The flush *)

Lemma set_value_length i v cmd : length (set_value i v cmd) = length cmd.
Proof. unfold set_value. apply length_insert. Qed.

Lemma memcpy_length off src dst : length (memcpy off src dst) = length dst.
Proof. unfold memcpy. apply length_inserts. Qed.

Lemma naga_command_led_length led_id st :
  length (naga_command_led led_id st) = SIZEOF_naga_command.
Proof.
  unfold naga_command_led, set_command, set_request.
  destruct (negb _); rewrite ?set_value_length, !memcpy_length; reflexivity.
Qed.

Lemma naga_command_freq_length f :
  length (naga_command_freq f) = SIZEOF_naga_command.
Proof.
  unfold naga_command_freq, set_command, set_request.
  rewrite set_value_length, !memcpy_length. reflexivity.
Qed.

Lemma call_command_init_resolution_length priv cmd :
  call_command_init_resolution priv = Some cmd ->
  length cmd = SIZEOF_naga_command.
Proof.
  unfold call_command_init_resolution, naga_command_init_resolution_5600,
    naga_command_init_resolution_8200, set_command, set_request.
  destruct (command_init_resolution priv) as [[]|]; [| |discriminate];
    destruct (cur_res priv (cur_dpimapping_X priv)); try discriminate;
    destruct (cur_res priv (cur_dpimapping_Y priv)); try discriminate;
    intros [= <-]; rewrite ?set_value_length, !memcpy_length; reflexivity.
Qed.

Lemma commit_led_commands_length priv cmd :
  cmd ∈ commit_led_commands priv -> length cmd = SIZEOF_naga_command.
Proof.
  unfold commit_led_commands. rewrite list_elem_of_omap.
  intros (id & _ & H).
  destruct (led_states priv !! id) as [st|]; [|discriminate]. simpl in H.
  destruct (st =? RAZER_LED_UNKNOWN); [discriminate|].
  injection H as <-. apply naga_command_led_length.
Qed.

Section FlushFacts.
Variable dev : nat -> usb_reply.

Lemma send_in_order_app (a b : list naga_command) (w : world) :
  send_in_order dev (a ++ b) w =
  match send_in_order dev a w with
  | Some (err, w1) => if err =? 0 then send_in_order dev b w1 else Some (err, w1)
  | None => None
  end.
Proof.
  revert w. induction a as [|c a IH]; intros w; simpl.
  - reflexivity.
  - unfold bind. destruct (naga_send_command dev c w) as [[[err cmd'] w1]|];
      [|reflexivity].
    simpl. destruct (err =? 0) eqn:He.
    + apply IH.
    + unfold ret. now rewrite He.
Qed.

Lemma send_in_order_one (c : naga_command) (w : world) :
  send_in_order dev [c] w =
  match naga_send_command dev c w with
  | Some (r, w1) => Some (fst r, w1)
  | None => None
  end.
Proof.
  simpl. unfold bind.
  destruct (naga_send_command dev c w) as [[[err cmd'] w1]|]; [|reflexivity].
  simpl. destruct (err =? 0) eqn:He; [|reflexivity].
  unfold ret. apply Z.eqb_eq in He. now subst.
Qed.

Lemma send_in_order_run (cmds : list naga_command) (w : world) :
  (forall c, c ∈ cmds -> length c = SIZEOF_naga_command) ->
  exists err w' k,
    send_in_order dev cmds w = Some (err, w') /\
    (k <= length cmds)%nat /\
    sent_packets (w_trace w') = sent_packets (w_trace w) ++ (sign <$> take k cmds) /\
    sleeps (w_trace w') = sleeps (w_trace w) /\
    (err = 0 -> k = length cmds) /\
    (err <> 0 -> (1 <= k)%nat).
Proof.
  revert w. induction cmds as [|c cmds IH]; intros w Hlen.
  - exists 0, w, 0%nat. simpl. rewrite !app_nil_r. repeat split; auto; lia.
  - simpl. unfold bind.
    destruct (naga_send_command_run dev c w)
      as (err & cmd' & w1 & d & Hrun & Hext & Hsent & Hsl & _).
    rewrite Hrun. simpl.
    assert (take SIZEOF_naga_command (sign c) = sign c) as Htake.
    { apply take_ge. rewrite sign_length, Hlen; [reflexivity|]. left. }
    destruct (err =? 0) eqn:He.
    + destruct (IH w1) as (err' & w' & k & Hrun' & Hk & Hs' & Hsl' & H0 & Hn0).
      { intros c' Hc'. apply Hlen. now right. }
      exists err', w', (S k). split; [exact Hrun'|].
      split; [simpl; lia|].
      rewrite Hs', Hsl', Hext, sent_packets_app, sleeps_app, Hsent, Hsl, Htake.
      simpl. rewrite <- app_assoc, app_nil_r.
      repeat split; auto; try lia.
    + exists err, w1, 1%nat. split; [reflexivity|].
      split; [simpl; lia|].
      rewrite Hext, sent_packets_app, sleeps_app, Hsent, Hsl, Htake.
      simpl. rewrite app_nil_r. apply Z.eqb_neq in He.
      repeat split; auto; try lia.
Qed.

Lemma naga_do_commit_leds_run priv (ids : list nat) (w : world) :
  (forall id, id ∈ ids -> (id < length (led_states priv))%nat) ->
  naga_do_commit_leds dev priv ids w =
  send_in_order dev
    (omap (fun led_id =>
             st ← led_states priv !! led_id;
             if st =? RAZER_LED_UNKNOWN then None
             else Some (naga_command_led led_id st)) ids) w.
Proof.
  revert w. induction ids as [|id ids IH]; intros w Hids; [reflexivity|].
  assert (forall id' : nat, id' ∈ ids -> (id' < length (led_states priv))%nat)
    as Hids' by (intros; apply Hids; now right).
  destruct (lookup_lt_is_Some_2 (led_states priv) id) as [st Hst];
    [apply Hids; left|].
  cbn [naga_do_commit_leds omap list_omap]. rewrite Hst. simpl.
  unfold bind at 1. unfold lift, ret at 1.
  destruct (st =? RAZER_LED_UNKNOWN).
  - now apply IH.
  - cbn [send_in_order]. unfold bind.
    destruct (naga_send_command dev _ w) as [[[err cmd'] w1]|]; [|reflexivity].
    simpl. destruct (err =? 0); simpl; [now apply IH | reflexivity].
Qed.

Lemma naga_do_commit_run priv rc (w : world) :
  length (led_states priv) = NAGA_NR_LEDS ->
  call_command_init_resolution priv = Some rc ->
  naga_do_commit dev priv w =
  match send_in_order dev (rc :: commit_led_commands priv) w with
  | Some (err, w1) =>
      if err =? 0 then
        match naga_freq_code (frequency priv) with
        | Some f => send_in_order dev [naga_command_freq f] w1
        | None => Some (- EINVAL, w1)
        end
      else Some (err, w1)
  | None => None
  end.
Proof.
  intros Hlen Hrc. unfold naga_do_commit. rewrite Hrc.
  change (rc :: commit_led_commands priv) with ([rc] ++ commit_led_commands priv).
  rewrite send_in_order_app, !send_in_order_one.
  unfold bind at 1. unfold lift, ret at 1. unfold bind at 1.
  destruct (naga_send_command dev rc w) as [[[err cmd'] w1]|]; [|reflexivity].
  cbn [fst]. destruct (err =? 0) eqn:He; cbn [negb].
  2:{ unfold ret. now rewrite He. }
  unfold bind at 1. unfold commit_led_commands.
  rewrite naga_do_commit_leds_run.
  2:{ intros id Hid. rewrite Hlen. apply elem_of_seq in Hid. lia. }
  destruct (send_in_order dev _ w1) as [[err2 w2]|]; [|reflexivity].
  destruct (err2 =? 0); cbn [negb]; [|reflexivity].
  destruct (naga_freq_code (frequency priv)) as [f|]; [|reflexivity].
  rewrite send_in_order_one. unfold bind.
  destruct (naga_send_command dev _ w2) as [[[err3 cmd3] w3]|]; [|reflexivity].
  cbn [fst]. destruct (err3 =? 0) eqn:He3; cbn [negb]; [|reflexivity].
  unfold ret. apply Z.eqb_eq in He3. now subst.
Qed.

End FlushFacts.

Section CommitFacts.
Variable dev : nat -> usb_reply.

Lemma naga_commit_claimed (m : razer_mouse) (force : bool) (w : world)
    (rc : naga_command) :
  let priv := drv_data m in
  claim_count m <> 0%nat -> commit_pending priv || force = true ->
  length (led_states priv) = NAGA_NR_LEDS ->
  call_command_init_resolution priv = Some rc ->
  let plan := commit_plan priv rc in
  exists err w' k,
    send_in_order dev plan w = Some (err, w') /\
    (1 <= k <= length plan)%nat /\
    sent_packets (w_trace w') =
      sent_packets (w_trace w) ++ (sign <$> take k plan) /\
    (err = 0 -> k = length plan) /\
    naga_commit dev m force w =
      Some (if err =? 0 then
              match naga_freq_code (frequency priv) with
              | Some _ => (0, set_drv_data (set_commit_pending false priv) m)
              | None => (- EINVAL, m)
              end
            else (err, m), w').
Proof.
  cbv zeta.
  intros Hc Hpf Hlen Hrc. cbv zeta.
  destruct (send_in_order_run dev (commit_plan (drv_data m) rc) w)
    as (err & w' & k & Hrun & Hk & Hsent & _ & H0 & Hn0).
  { intros c Hc'. unfold commit_plan in Hc'.
    apply elem_of_cons in Hc' as [->|Hc'].
    - now apply call_command_init_resolution_length with (drv_data m).
    - apply elem_of_app in Hc' as [Hc'|Hc'].
      + now apply commit_led_commands_length with (drv_data m).
      + destruct (naga_freq_code _); [|inversion Hc'].
        apply list_elem_of_singleton in Hc' as ->.
        apply naga_command_freq_length. }
  exists err, w', k. split; [exact Hrun|].
  split.
  { destruct (Z.eq_dec err 0) as [He|He].
    - rewrite (H0 He). unfold commit_plan. simpl. lia.
    - specialize (Hn0 He). lia. }
  split; [exact Hsent|]. split; [exact H0|].
  unfold naga_commit. apply Nat.eqb_neq in Hc. rewrite Hc, Hpf.
  unfold bind. rewrite (naga_do_commit_run dev _ rc w Hlen Hrc).
  unfold commit_plan in Hrun.
  change (rc :: commit_led_commands (drv_data m) ++ ?l)
    with ((rc :: commit_led_commands (drv_data m)) ++ l) in Hrun.
  rewrite send_in_order_app in Hrun.
  destruct (send_in_order dev (rc :: commit_led_commands (drv_data m)) w)
    as [[err1 w1]|]; [|discriminate].
  destruct (err1 =? 0) eqn:He1.
  + destruct (naga_freq_code (frequency (drv_data m))) as [f|].
    * rewrite Hrun. unfold ret. destruct (err =? 0) eqn:He; [|reflexivity].
      apply Z.eqb_eq in He. now subst.
    * simpl in Hrun. injection Hrun as <- <-.
      apply Z.eqb_eq in He1. subst. reflexivity.
  + injection Hrun as Ha Hb. subst. unfold ret. now rewrite He1.
Qed.

(** C1, amended.  [commit(force)] returns busy when the device is not
    claimed; with nothing pending and no force it does nothing at all;
    otherwise it exchanges, in order, the resolution command, one LED
    command per LED whose state is not the unsupported sentinel, and, when
    the stored frequency is one of the enum, the frequency command.  The
    first failing exchange ends the flush with its error; a stored
    frequency outside the enum ends it with invalid-argument once the
    resolution and LED commands went through, and no frequency command is
    sent.  On any failure the state, [commit_pending] included, is left as it
    was; only the full success clears [commit_pending]. *)
Theorem naga_commit_flush (m : razer_mouse) (force : bool) (w : world) :
  let priv := drv_data m in
  (claim_count m = 0%nat -> naga_commit dev m force w = Some (- EBUSY, m, w)) /\
  (claim_count m <> 0%nat -> commit_pending priv = false -> force = false ->
   naga_commit dev m force w = Some (0, m, w)) /\
  (claim_count m <> 0%nat -> commit_pending priv || force = true ->
   length (led_states priv) = NAGA_NR_LEDS ->
   forall rc, call_command_init_resolution priv = Some rc ->
   let plan := commit_plan priv rc in
   exists err w' k,
     send_in_order dev plan w = Some (err, w') /\
     (1 <= k <= length plan)%nat /\
     sent_packets (w_trace w') =
       sent_packets (w_trace w) ++ (sign <$> take k plan) /\
     (err = 0 -> k = length plan) /\
     naga_commit dev m force w =
       Some (if err =? 0 then
               match naga_freq_code (frequency priv) with
               | Some _ => (0, set_drv_data (set_commit_pending false priv) m)
               | None => (- EINVAL, m)
               end
             else (err, m), w')).
Proof.
  cbv zeta. split; [|split].
  - intros Hc. unfold naga_commit. now rewrite Hc.
  - intros Hc Hp Hf. unfold naga_commit. apply Nat.eqb_neq in Hc.
    now rewrite Hc, Hp, Hf.
  - intros Hc Hpf Hlen rc Hrc.
    exact (naga_commit_claimed m force w rc Hc Hpf Hlen Hrc).
Qed.

End CommitFacts.


(** ** The abstraction surface *)

Lemma naga_commit_flush_witness :
  let m := sample_mouse 1 (set_commit_pending true (sample_priv SAMPLE_PID_CLASSIC)) in
  let rc := default [] (call_command_init_resolution (drv_data m)) in
  let plan := commit_plan (drv_data m) rc in
  naga_commit sample_dev_ok (sample_mouse 0 (drv_data m)) false world0
    = Some (- EBUSY, sample_mouse 0 (drv_data m), world0) /\
  naga_commit sample_dev_ok (sample_mouse 1 (sample_priv SAMPLE_PID_CLASSIC))
    false world0
    = Some (0, sample_mouse 1 (sample_priv SAMPLE_PID_CLASSIC), world0) /\
  exists err w' k,
     send_in_order sample_dev_ok plan world0 = Some (err, w') /\
     (1 <= k <= length plan)%nat /\
     sent_packets (w_trace w') =
       sent_packets (w_trace world0) ++ (sign <$> take k plan) /\
     (err = 0 -> k = length plan) /\
     naga_commit sample_dev_ok m false world0 =
       Some (if err =? 0 then
               match naga_freq_code (frequency (drv_data m)) with
               | Some _ =>
                   (0, set_drv_data (set_commit_pending false (drv_data m)) m)
               | None => (- EINVAL, m)
               end
             else (err, m), w').
Proof.
  cbv zeta. split; [|split].
  - apply (naga_commit_flush sample_dev_ok
             (sample_mouse 0 (set_commit_pending true (sample_priv SAMPLE_PID_CLASSIC)))
             false world0). reflexivity.
  - apply (naga_commit_flush sample_dev_ok
             (sample_mouse 1 (sample_priv SAMPLE_PID_CLASSIC)) false world0).
    + simpl. lia.
    + vm_compute. reflexivity.
    + reflexivity.
  - apply (naga_commit_flush sample_dev_ok
             (sample_mouse 1 (set_commit_pending true (sample_priv SAMPLE_PID_CLASSIC)))
             false world0).
    + simpl. lia.
    + vm_compute. reflexivity.
    + vm_compute. reflexivity.
    + vm_compute. reflexivity.
Defined.

(** C1 as stated fails in two places.  With a stored frequency of 250, which
    [set_frequency] accepts, a flush over a working device sends the
    resolution command and the two LED commands of a Classic and then returns
    invalid-argument: no frequency command goes out.  And a forced flush of a
    state with nothing pending, over a device that times out, returns the
    error with [commit_pending] still false. *)
Lemma naga_commit_counterexample :
  let p := set_commit_pending true (sample_priv SAMPLE_PID_CLASSIC) in
  let m1 := sample_mouse 1 (set_frequency 250 p) in
  let m2 := sample_mouse 1 (sample_priv SAMPLE_PID_CLASSIC) in
  (exists w',
     naga_commit sample_dev_ok m1 false world0 = Some (- EINVAL, m1, w') /\
     sent_packets (w_trace w') =
       sign <$> [default [] (call_command_init_resolution p);
                 naga_command_led NAGA_LED_SCROLL RAZER_LED_ON;
                 naga_command_led NAGA_LED_LOGO RAZER_LED_ON]) /\
  (exists w',
     naga_commit sample_dev_dead m2 true world0 = Some (-7, m2, w') /\
     commit_pending (drv_data m2) = false).
Proof.
  cbv zeta. split.
  - eexists. split; vm_compute; reflexivity.
  - eexists. split; vm_compute; reflexivity.
Qed.

Section SurfaceFacts.
Variable dev : nat -> usb_reply.

Lemma naga_led_toggle_unsupported (m : razer_mouse) (led_id : nat) (new_state : Z) :
  led_states (drv_data m) !! led_id = Some RAZER_LED_UNKNOWN ->
  naga_led_toggle m led_id new_state = Some (- EINVAL, m).
Proof.
  intros H. unfold naga_led_toggle. rewrite H.
  destruct (NAGA_NR_LEDS <=? led_id)%nat; [reflexivity|].
  destruct (_ && _); reflexivity.
Qed.

(** C5, amended.  On a device that is not claimed, every staging operation
    and commit fails, leaves the world as it was (no transfer at all) and
    leaves the driver state as it was.  The error is busy, except that the
    LED toggle checks its arguments first: with an unknown LED id, a state
    that is neither on nor off, or a LED the model lacks, it answers
    invalid-argument. *)
Theorem unclaimed_operations (m : razer_mouse) (w : world) (op : naga_op) :
  claim_count m = 0%nat ->
  length (led_states (drv_data m)) = NAGA_NR_LEDS ->
  exists err,
    run_op dev op m w = Some (err, m, w) /\
    err = match op with
          | OpLedToggle led_id new_state =>
              if led_toggle_args_ok m led_id new_state then - EBUSY
              else - EINVAL
          | _ => - EBUSY
          end.
Proof.
  intros Hc Hlen. destruct op as [force|led_id new_state|freq|axis d]; simpl.
  - exists (- EBUSY). unfold naga_commit. now rewrite Hc.
  - unfold naga_led_toggle, led_toggle_args_ok.
    destruct (Nat.leb_spec NAGA_NR_LEDS led_id) as [Hge|Hlt].
    + replace (led_id <? NAGA_NR_LEDS)%nat with false
        by (symmetry; apply Nat.ltb_ge; exact Hge).
      eexists; split; reflexivity.
    + replace (led_id <? NAGA_NR_LEDS)%nat with true
        by (symmetry; apply Nat.ltb_lt; exact Hlt).
      destruct (lookup_lt_is_Some_2 (led_states (drv_data m)) led_id) as [st Hst];
        [now rewrite Hlen|].
      rewrite Hst. simpl.
      destruct (new_state =? RAZER_LED_OFF), (new_state =? RAZER_LED_ON);
        simpl; try (eexists; split; reflexivity);
        destruct (st =? RAZER_LED_UNKNOWN); simpl; rewrite ?Hc; simpl;
        eexists; split; reflexivity.
  - exists (- EBUSY). unfold naga_set_freq, ret. now rewrite Hc.
  - exists (- EBUSY). unfold naga_set_dpimapping, ret. now rewrite Hc.
Qed.

End SurfaceFacts.

Section SequenceFacts.
Variable dev : nat -> usb_reply.

Lemma run_op_led_states (op : naga_op) (m m' : razer_mouse) (w w' : world)
    (err : Z) (i : nat) :
  run_op dev op m w = Some (err, m', w') ->
  led_states (drv_data m') !! i = Some RAZER_LED_UNKNOWN <->
  led_states (drv_data m) !! i = Some RAZER_LED_UNKNOWN.
Proof.
  destruct op as [force|led_id new_state|freq|axis d]; simpl.
  - unfold naga_commit.
    destruct ((claim_count m =? 0)%nat); [intros [= <- <- <-]; reflexivity|].
    destruct (_ || _); [|intros [= <- <- <-]; reflexivity].
    unfold bind. destruct (naga_do_commit dev (drv_data m) w) as [[e w1]|];
      [|discriminate].
    destruct (e =? 0); intros [= <- <- <-]; reflexivity.
  - unfold naga_led_toggle.
    destruct (NAGA_NR_LEDS <=? led_id)%nat; [intros [= <- <- <-]; reflexivity|].
    destruct (new_state =? RAZER_LED_OFF) eqn:Hoff;
      destruct (new_state =? RAZER_LED_ON) eqn:Hon; cbn [negb andb];
      try (intros [= <- <- <-]; reflexivity);
      (destruct (led_states (drv_data m) !! led_id) as [st|] eqn:Hst;
         [|discriminate]; cbn [mbind option_bind lift];
       destruct (st =? RAZER_LED_UNKNOWN) eqn:Hun;
         [intros [= <- <- <-]; reflexivity|];
       destruct ((claim_count m =? 0)%nat); intros [= <- <- <-]; [reflexivity|];
       cbn [drv_data set_drv_data led_states set_commit_pending set_led_state];
       destruct (Nat.eq_dec led_id i) as [->|Hne];
         [|now rewrite list_lookup_insert_ne];
       rewrite list_lookup_insert_eq by (now apply lookup_lt_Some with st);
       rewrite Hst; apply Z.eqb_neq in Hun;
       split; intros [= H]; [|contradiction]).
    all: exfalso.
    1,2: apply Z.eqb_eq in Hoff; unfold RAZER_LED_OFF, RAZER_LED_UNKNOWN in *; lia.
    apply Z.eqb_eq in Hon; unfold RAZER_LED_ON, RAZER_LED_UNKNOWN in *; lia.
  - unfold naga_set_freq, ret.
    destruct ((claim_count m =? 0)%nat); intros [= <- <- <-]; reflexivity.
  - unfold naga_set_dpimapping, ret.
    destruct ((claim_count m =? 0)%nat); [intros [= <- <- <-]; reflexivity|].
    destruct axis as [a|]; [|intros [= <- <- <-]; reflexivity].
    destruct (NAGA_NR_AXES <=? axis_id a)%nat; [intros [= <- <- <-]; reflexivity|].
    destruct (axis_id a =? 0)%nat; [intros [= <- <- <-]; reflexivity|].
    destruct (axis_id a =? 1)%nat; intros [= <- <- <-]; reflexivity.
Qed.

(** C7.  Toggling a LED whose stored state is the unsupported sentinel
    answers invalid-argument and leaves the whole state, the LED array and
    [commit_pending] included, as it was.  And no sequence of surface
    operations moves the sentinel: after the sequence a LED is marked
    unsupported exactly when it was before. *)
Theorem unsupported_led_fixed :
  (forall (m : razer_mouse) (led_id : nat) (new_state : Z),
     led_states (drv_data m) !! led_id = Some RAZER_LED_UNKNOWN ->
     naga_led_toggle m led_id new_state = Some (- EINVAL, m)) /\
  (forall (ops : list naga_op) (m m' : razer_mouse) (w w' : world) (i : nat),
     run_ops dev ops m w = Some (m', w') ->
     led_states (drv_data m') !! i = Some RAZER_LED_UNKNOWN <->
     led_states (drv_data m) !! i = Some RAZER_LED_UNKNOWN).
Proof.
  split; [exact naga_led_toggle_unsupported|].
  induction ops as [|op ops IH]; intros m m' w w' i.
  - intros [= <- <-]. reflexivity.
  - cbn [run_ops]. unfold bind.
    destruct (run_op dev op m w) as [[[err m1] w1]|] eqn:Hop; [|discriminate].
    cbn [snd]. intros Hrest.
    rewrite (IH m1 m' w1 w' i Hrest).
    exact (run_op_led_states op m m1 w w1 err i Hop).
Qed.

End SequenceFacts.

Lemma unclaimed_operations_witness :
  let m := sample_mouse 0 (sample_priv SAMPLE_PID_CLASSIC) in
  exists err,
    run_op sample_dev_ok (OpSetFreq RAZER_MOUSE_FREQ_125HZ) m world0
      = Some (err, m, world0) /\
    err = - EBUSY.
Proof.
  cbv zeta.
  apply (unclaimed_operations sample_dev_ok
           (sample_mouse 0 (sample_priv SAMPLE_PID_CLASSIC)) world0
           (OpSetFreq RAZER_MOUSE_FREQ_125HZ)).
  - reflexivity.
  - vm_compute. reflexivity.
Defined.

(** C5 as stated fails for the LED toggle: on an unclaimed Classic, toggling
    the thumb-grid LED, which the model lacks, or a LED id that does not
    exist, answers invalid-argument, not busy. *)
Lemma unclaimed_led_toggle_counterexample :
  let m := sample_mouse 0 (sample_priv SAMPLE_PID_CLASSIC) in
  claim_count m = 0%nat /\
  run_op sample_dev_ok (OpLedToggle NAGA_LED_THUMB_GRID RAZER_LED_ON) m world0
    = Some (- EINVAL, m, world0) /\
  run_op sample_dev_ok (OpLedToggle 7 RAZER_LED_OFF) m world0
    = Some (- EINVAL, m, world0) /\
  - EINVAL <> - EBUSY.
Proof.
  cbv zeta. split; [reflexivity|]. split; [vm_compute; reflexivity|].
  split; [vm_compute; reflexivity|]. discriminate.
Qed.

Lemma unsupported_led_fixed_witness :
  let m := sample_mouse 1 (sample_priv SAMPLE_PID_CLASSIC) in
  naga_led_toggle m NAGA_LED_THUMB_GRID RAZER_LED_ON = Some (- EINVAL, m) /\
  exists m' w',
    run_ops sample_dev_ok
      [OpLedToggle NAGA_LED_SCROLL RAZER_LED_OFF;
       OpLedToggle NAGA_LED_THUMB_GRID RAZER_LED_ON;
       OpSetFreq RAZER_MOUSE_FREQ_500HZ; OpCommit false] m world0
      = Some (m', w') /\
    led_states (drv_data m') !! NAGA_LED_SCROLL = Some RAZER_LED_OFF /\
    commit_pending (drv_data m') = false /\
    led_states (drv_data m') !! NAGA_LED_THUMB_GRID = Some RAZER_LED_UNKNOWN.
Proof.
  cbv zeta. destruct (unsupported_led_fixed sample_dev_ok) as [A B]. split.
  - apply A. vm_compute. reflexivity.
  - eassert (run_ops sample_dev_ok
               [OpLedToggle NAGA_LED_SCROLL RAZER_LED_OFF;
                OpLedToggle NAGA_LED_THUMB_GRID RAZER_LED_ON;
                OpSetFreq RAZER_MOUSE_FREQ_500HZ; OpCommit false]
               (sample_mouse 1 (sample_priv SAMPLE_PID_CLASSIC)) world0
             = Some (_, _)) as Hrun by (vm_compute; reflexivity).
    eexists _, _. split; [exact Hrun|].
    split; [vm_compute; reflexivity|]. split; [vm_compute; reflexivity|].
    apply (B _ _ _ _ _ NAGA_LED_THUMB_GRID Hrun).
    vm_compute. reflexivity.
Defined.

Section MutatorFacts.
Variable dev : nat -> usb_reply.


(** C9, amended.  On a claimed device, for every mapping [d]:
    [set_dpi_mapping] with axis id 0 stages [d] for X and leaves Y; with
    axis id 1 it stages [d] for Y and leaves X; without an axis it stages
    [d] for both; each of these succeeds and sets [commit_pending].  With
    any other axis id it answers invalid-argument and stages nothing. *)
Theorem set_dpimapping_axes (m : razer_mouse) (d : option nat) :
  claim_count m <> 0%nat ->
  let priv := drv_data m in
  let staged p := set_drv_data (set_commit_pending true p) m in
  naga_set_dpimapping m (Some {| axis_id := 0 |}) d
    = (0, staged (set_cur_dpimapping_X d priv)) /\
  naga_set_dpimapping m (Some {| axis_id := 1 |}) d
    = (0, staged (set_cur_dpimapping_Y d priv)) /\
  naga_set_dpimapping m None d
    = (0, staged (set_cur_dpimapping_Y d (set_cur_dpimapping_X d priv))) /\
  (forall id, (2 <= id)%nat ->
     naga_set_dpimapping m (Some {| axis_id := id |}) d = (- EINVAL, m)) /\
  (cur_dpimapping_X (set_cur_dpimapping_X d priv) = d /\
   cur_dpimapping_Y (set_cur_dpimapping_X d priv) = cur_dpimapping_Y priv) /\
  (cur_dpimapping_Y (set_cur_dpimapping_Y d priv) = d /\
   cur_dpimapping_X (set_cur_dpimapping_Y d priv) = cur_dpimapping_X priv) /\
  (cur_dpimapping_X (set_cur_dpimapping_Y d (set_cur_dpimapping_X d priv)) = d /\
   cur_dpimapping_Y (set_cur_dpimapping_Y d (set_cur_dpimapping_X d priv)) = d).
Proof.
  intros Hc. cbv zeta. apply Nat.eqb_neq in Hc.
  unfold naga_set_dpimapping. rewrite Hc.
  repeat split.
  intros id Hid. cbn [axis_id].
  destruct (Nat.leb_spec NAGA_NR_AXES id); [reflexivity|].
  destruct id as [|[|id]]; [lia|lia|]. reflexivity.
Qed.

End MutatorFacts.



Lemma set_dpimapping_axes_witness :
  let m := sample_mouse 1 (sample_priv SAMPLE_PID_CLASSIC) in
  naga_get_dpimapping
    (snd (naga_set_dpimapping m (Some {| axis_id := 0 |}) (Some 4%nat)))
    (Some {| axis_id := 0 |}) = Some 4%nat /\
  naga_get_dpimapping
    (snd (naga_set_dpimapping m (Some {| axis_id := 0 |}) (Some 4%nat)))
    (Some {| axis_id := 1 |}) = Some 9%nat /\
  naga_set_dpimapping m (Some {| axis_id := 2 |}) (Some 4%nat) = (- EINVAL, m).
Proof.
  cbv zeta.
  destruct (set_dpimapping_axes (sample_mouse 1 (sample_priv SAMPLE_PID_CLASSIC))
              (Some 4%nat)) as (A & _ & _ & D & _).
  - simpl. lia.
  - rewrite A. split; [reflexivity|]. split; [vm_compute; reflexivity|].
    apply D. lia.
Defined.

(** C9 as stated fails for the other axis ids: with the id of the scroll
    axis, or with an id beyond the axes, [set_dpi_mapping] answers
    invalid-argument and stages nothing. *)
Lemma set_dpimapping_counterexample :
  let m := sample_mouse 1 (sample_priv SAMPLE_PID_CLASSIC) in
  naga_set_dpimapping m (Some {| axis_id := 2 |}) (Some 4%nat) = (- EINVAL, m) /\
  naga_set_dpimapping m (Some {| axis_id := 5 |}) (Some 4%nat) = (- EINVAL, m) /\
  cur_dpimapping_X (drv_data m) = Some 9%nat /\
  cur_dpimapping_Y (drv_data m) = Some 9%nat.
Proof. cbv zeta. repeat split; vm_compute; reflexivity. Qed.


(** ** The firmware probe and attach *)

Section ProbeFacts.
Variable dev : nat -> usb_reply.

Lemma naga_fw_poke_run (w : world) :
  exists err ver w' d,
    naga_fw_poke dev w = Some ((err, ver), w') /\
    extends w w' d /\
    sent_packets d = [sign naga_command_fw_ver] /\
    sleeps d = [] /\ 0 <= ver < 65536.
Proof.
  unfold naga_fw_poke.
  destruct (naga_send_command_run dev naga_command_fw_ver w)
    as (err & cmd' & w' & d & Hrun & Hext & Hsent & Hsl & _).
  unfold bind. rewrite Hrun. unfold ret.
  do 4 eexists. split; [reflexivity|]. split; [exact Hext|].
  split; [exact Hsent|]. split; [exact Hsl|].
  unfold uint16. apply Z.mod_pos_bound. lia.
Qed.

Lemma failed_pokes_trace (k : nat) (w wk : world) :
  failed_pokes dev k w = Some wk ->
  exists d, extends w wk d /\
    sent_packets d = replicate k (sign naga_command_fw_ver) /\
    sleeps d = replicate k 250.
Proof.
  revert w. induction k as [|k IH]; intros w; cbn [failed_pokes].
  - intros [= <-]. exists []. split; [apply extends_refl|]. split; reflexivity.
  - destruct (naga_fw_poke_run w) as (err & ver & w1 & d & Hrun & Hext & Hs & Hsl & _).
    rewrite Hrun. destruct (fw_poke_ok err ver); [discriminate|].
    intros Hk. destruct (IH _ Hk) as (d' & Hext' & Hs' & Hsl').
    exists (d ++ [EvSleep 250] ++ d'). split.
    + unfold extends, emit in *. simpl in Hext'.
      rewrite Hext', Hext, <- !app_assoc. reflexivity.
    + rewrite !sent_packets_app, !sleeps_app, Hs, Hsl, Hs', Hsl'.
      split; reflexivity.
Qed.

Lemma naga_read_fw_ver_loop_success (n k : nat) (w wk w' : world) (ver : Z) :
  (k < n)%nat ->
  failed_pokes dev k w = Some wk ->
  naga_fw_poke dev wk = Some ((0, ver), w') ->
  Z.land ver 65280 <> 0 ->
  naga_read_fw_ver_loop dev n w = Some (ver, w').
Proof.
  revert n w. induction k as [|k IH]; intros n w Hkn; cbn [failed_pokes].
  - intros [= <-] Hpoke Hver. destruct n as [|n]; [lia|].
    cbn [naga_read_fw_ver_loop]. unfold bind. rewrite Hpoke.
    unfold fw_poke_ok. apply Z.eqb_neq in Hver. now rewrite Hver.
  - destruct n as [|n]; [lia|].
    cbn [naga_read_fw_ver_loop]. unfold bind at 1.
    destruct (naga_fw_poke dev w) as [[[err v] w1]|]; [|discriminate].
    destruct (fw_poke_ok err v); [discriminate|].
    intros Hk Hpoke Hver. unfold bind, razer_msleep, tell.
    apply (IH n _ ltac:(lia) Hk Hpoke Hver).
Qed.

Lemma naga_read_fw_ver_loop_exhausted (n : nat) (w wn : world) :
  failed_pokes dev n w = Some wn ->
  naga_read_fw_ver_loop dev n w = Some (- ENODEV, emit (EvError FW_ERROR) wn).
Proof.
  revert w. induction n as [|n IH]; intros w; cbn [failed_pokes].
  - intros [= <-]. reflexivity.
  - cbn [naga_read_fw_ver_loop]. unfold bind at 1.
    destruct (naga_fw_poke dev w) as [[[err v] w1]|]; [|discriminate].
    destruct (fw_poke_ok err v); [discriminate|].
    intros Hk. unfold bind, razer_msleep, tell. now apply IH.
Qed.

Lemma probe_cases (n : nat) (w : world) :
  (exists k wk ver w',
     (k < n)%nat /\ failed_pokes dev k w = Some wk /\
     naga_fw_poke dev wk = Some ((0, ver), w') /\ Z.land ver 65280 <> 0) \/
  (exists wn, failed_pokes dev n w = Some wn).
Proof.
  revert w. induction n as [|n IH]; intros w.
  - right. now exists w.
  - destruct (naga_fw_poke_run w) as (err & ver & w1 & d & Hrun & _).
    destruct (fw_poke_ok err ver) eqn:Hok.
    + left. exists 0%nat, w, ver, w1.
      unfold fw_poke_ok in Hok. apply andb_true_iff in Hok as [He Hv].
      apply Z.eqb_eq in He. subst err.
      apply negb_true_iff, Z.eqb_neq in Hv.
      repeat split; auto. lia.
    + destruct (IH (emit (EvSleep 250) w1))
        as [(k & wk & v & w' & Hk & Hf & Hp & Hv)|(wn & Hf)].
      * left. exists (S k), wk, v, w'. split; [lia|].
        cbn [failed_pokes]. rewrite Hrun, Hok. auto.
      * right. exists wn. cbn [failed_pokes]. now rewrite Hrun, Hok.
Qed.

End ProbeFacts.

Lemma mouse_release_fields (m m' : razer_mouse) (w w' : world) :
  mouse_release m w = Some (m', w') ->
  drv_data m' = drv_data m /\ claim_count m' = (claim_count m - 1)%nat /\
  w' = emit EvRelease w.
Proof.
  unfold mouse_release, bind, tell, ret.
  destruct (claim_count m =? 0)%nat eqn:Hc; intros [= <- <-].
  - apply Nat.eqb_eq in Hc. rewrite Hc. auto.
  - auto.
Qed.

Section AttachFacts.
Variable dev : nat -> usb_reply.
Variables PID_EPIC PID_2014 : Z.

Lemma razer_naga_init_success (env : attach_env) (m m' : razer_mouse)
    (w w' : world) :
  razer_naga_init dev PID_EPIC PID_2014 env m w = Some (0, m', w') ->
  exists fwver,
    drv_data m' =
      naga_init_defaults PID_2014 (idProduct env)
        (set_fw_version (uint16 fwver) naga_private_zero) /\
    claim_count m' = claim_count m.
Proof.
  unfold razer_naga_init.
  destruct (desc_err env =? 0); cbn [negb].
  2:{ unfold bind, razer_error, tell, ret. intros H. inversion H. }
  destruct (zalloc_ok env); cbn [negb].
  2:{ unfold ret. intros H. inversion H. }
  destruct (add_used_interface_err env =? 0) eqn:Hadd; cbn [negb].
  2:{ unfold bind, tell, ret. intros [= H]. rewrite H in Hadd. discriminate. }
  unfold mouse_claim.
  destruct (claim_err env =? 0) eqn:Hclaim.
  2:{ unfold bind, razer_error, tell, ret. cbn [negb].
      rewrite Hclaim. cbn [negb]. intros [= H]. rewrite H in Hclaim. discriminate. }
  unfold bind at 1. unfold bind at 1. unfold tell, ret at 1.
  cbn [Z.eqb negb].
  unfold bind at 1.
  destruct (naga_read_fw_ver dev _) as [[fwver w1]|]; [|discriminate].
  destruct (fwver <? 0) eqn:Hneg.
  { unfold bind. destruct (mouse_release _ w1) as [[m1 w2]|]; [|discriminate].
    unfold tell, ret. intros [= H]. subst. discriminate. }
  unfold bind at 1.
  match goal with |- context [if ?c then _ else ret ?mm] => destruct c end.
  - unfold bind at 1. unfold razer_error, tell, ret at 1.
    unfold bind at 1.
    destruct (naga_do_commit dev _ _) as [[err w2]|]; [|discriminate].
    destruct (err =? 0) eqn:He; cbn [negb].
    + unfold bind. destruct (mouse_release _ w2) as [[m1 w3]|] eqn:Hrel;
        [|discriminate].
      unfold ret. intros [= <- <-].
      apply mouse_release_fields in Hrel as (Hd & Hcnt & _).
      exists fwver. rewrite Hd, Hcnt. cbn. split; [reflexivity|lia].
    + unfold bind. unfold razer_error, tell.
      destruct (mouse_release _ _) as [[m1 w3]|]; [|discriminate].
      unfold ret. intros [= H]. rewrite H in He. discriminate.
  - unfold ret at 1. unfold bind at 1.
    destruct (naga_do_commit dev _ _) as [[err w2]|]; [|discriminate].
    destruct (err =? 0) eqn:He; cbn [negb].
    + unfold bind. destruct (mouse_release _ w2) as [[m1 w3]|] eqn:Hrel;
        [|discriminate].
      unfold ret. intros [= <- <-].
      apply mouse_release_fields in Hrel as (Hd & Hcnt & _).
      exists fwver. rewrite Hd, Hcnt. cbn. split; [reflexivity|lia].
    + unfold bind. unfold razer_error, tell.
      destruct (mouse_release _ _) as [[m1 w3]|]; [|discriminate].
      unfold ret. intros [= H]. rewrite H in He. discriminate.
Qed.

Lemma naga_init_defaults_2014 (v : Z) :
  let priv := naga_init_defaults PID_2014 PID_2014 (set_fw_version v naga_private_zero) in
  nb_dpimappings priv = NAGA_8200_NR_DPIMAPPINGS /\
  led_states priv = [RAZER_LED_ON; RAZER_LED_ON; RAZER_LED_ON] /\
  command_init_resolution priv = Some init_resolution_8200.
Proof.
  cbv zeta. unfold naga_init_defaults. rewrite Z.eqb_refl.
  repeat split; reflexivity.
Qed.

Lemma naga_init_defaults_other (pid v : Z) :
  pid <> PID_2014 ->
  let priv := naga_init_defaults PID_2014 pid (set_fw_version v naga_private_zero) in
  nb_dpimappings priv = NAGA_5600_NR_DPIMAPPINGS /\
  led_states priv = [RAZER_LED_ON; RAZER_LED_ON; RAZER_LED_UNKNOWN] /\
  command_init_resolution priv = Some init_resolution_5600.
Proof.
  intros Hne. cbv zeta. unfold naga_init_defaults.
  apply Z.eqb_neq in Hne. rewrite Hne.
  repeat split; reflexivity.
Qed.

Lemma naga_init_defaults_mapping (pid v : Z) :
  let priv := naga_init_defaults PID_2014 pid (set_fw_version v naga_private_zero) in
  cur_dpimapping_X priv = Some 9%nat /\
  cur_dpimapping_Y priv = Some 9%nat /\
  dpimapping priv !! 9%nat
    = Some {| nr := 9; res_dim0 := 1000; dimension_mask := 1 |} /\
  frequency priv = RAZER_MOUSE_FREQ_1000HZ.
Proof.
  cbv zeta. unfold naga_init_defaults.
  destruct (pid =? PID_2014); repeat split; reflexivity.
Qed.

(** C6.  A successful attach of a device with the 2014 product id leaves a
    driver with 82 DPI-mapping slots, the three LEDs on and the raw
    resolution builder; a successful attach of any of the five other
    products (Classic, Epic, 2012, Hex, Hex v2, whose ids differ from the
    2014 id) leaves 56 slots, the thumb-grid LED marked unsupported and the
    scaled resolution builder. *)
Theorem attach_variant (PID_CLASSIC PID_2012 PID_HEX PID_HEX_V2 : Z)
    (env : attach_env) (m m' : razer_mouse) (w w' : world) :
  razer_naga_init dev PID_EPIC PID_2014 env m w = Some (0, m', w') ->
  let priv := drv_data m' in
  (idProduct env = PID_2014 ->
   nb_dpimappings priv = 82%nat /\
   length (naga_supported_resolutions m') = 82%nat /\
   led_states priv = [RAZER_LED_ON; RAZER_LED_ON; RAZER_LED_ON] /\
   command_init_resolution priv = Some init_resolution_8200) /\
  (PID_2014 ∉ [PID_CLASSIC; PID_EPIC; PID_2012; PID_HEX; PID_HEX_V2] ->
   idProduct env ∈ [PID_CLASSIC; PID_EPIC; PID_2012; PID_HEX; PID_HEX_V2] ->
   nb_dpimappings priv = 56%nat /\
   length (naga_supported_resolutions m') = 56%nat /\
   led_states priv !! NAGA_LED_THUMB_GRID = Some RAZER_LED_UNKNOWN /\
   led_states priv = [RAZER_LED_ON; RAZER_LED_ON; RAZER_LED_UNKNOWN] /\
   command_init_resolution priv = Some init_resolution_5600).
Proof.
  intros Hinit. cbv zeta.
  destruct (razer_naga_init_success env m m' w w' Hinit) as (fwver & Hpriv & _).
  unfold naga_supported_resolutions. rewrite length_fmap, length_seq, Hpriv.
  split.
  - intros ->.
    destruct (naga_init_defaults_2014 (uint16 fwver)) as (Hn & Hl & Hv).
    rewrite Hn, Hl, Hv. auto.
  - intros Hdistinct Hin.
    assert (idProduct env <> PID_2014) as Hne.
    { intros Heq. apply Hdistinct. now rewrite <- Heq. }
    destruct (naga_init_defaults_other (idProduct env) (uint16 fwver) Hne)
      as (Hn & Hl & Hv).
    rewrite Hn, Hl, Hv. auto.
Qed.

(** C10.  After a successful attach, whatever the product, the current
    mapping of the X axis and of the Y axis is slot 9 of the table, the slot
    of 1000 DPI. *)
Theorem attach_default_dpimapping (env : attach_env) (m m' : razer_mouse)
    (w w' : world) :
  razer_naga_init dev PID_EPIC PID_2014 env m w = Some (0, m', w') ->
  let priv := drv_data m' in
  cur_dpimapping_X priv = Some 9%nat /\
  cur_dpimapping_Y priv = Some 9%nat /\
  naga_get_dpimapping m' (Some {| axis_id := 0 |}) = Some 9%nat /\
  naga_get_dpimapping m' (Some {| axis_id := 1 |}) = Some 9%nat /\
  dpimapping priv !! 9%nat
    = Some {| nr := 9; res_dim0 := 1000; dimension_mask := 1 |} /\
  cur_res priv (cur_dpimapping_X priv) = Some 1000 /\
  cur_res priv (cur_dpimapping_Y priv) = Some 1000 /\
  naga_supported_resolutions m' !! 9%nat = Some 1000.
Proof.
  intros Hinit. cbv zeta.
  destruct (razer_naga_init_success env m m' w w' Hinit) as (fwver & Hpriv & _).
  destruct (naga_init_defaults_mapping (idProduct env) (uint16 fwver))
    as (HX & HY & H9 & _).
  rewrite <- Hpriv in HX, HY, H9.
  unfold naga_get_dpimapping. cbn [axis_id Nat.eqb].
  unfold cur_res. rewrite HX, HY, H9. cbn [fmap option_fmap option_map res_dim0].
  repeat split; try reflexivity.
  unfold naga_supported_resolutions. rewrite Hpriv.
  unfold naga_init_defaults.
  destruct (idProduct env =? PID_2014); reflexivity.
Qed.


End AttachFacts.

Lemma sample_pids_distinct :
  SAMPLE_PID_2014 ∉ [SAMPLE_PID_CLASSIC; SAMPLE_PID_EPIC; SAMPLE_PID_2012;
                     SAMPLE_PID_HEX; SAMPLE_PID_HEX_V2].
Proof.
  intros Hin. apply list_elem_of_In in Hin. simpl in Hin.
  repeat (destruct Hin as [Hin|Hin]; [discriminate Hin|]). exact Hin.
Qed.

Lemma attach_variant_witness :
  (exists m' w',
     razer_naga_init sample_dev_ok SAMPLE_PID_EPIC SAMPLE_PID_2014
       (sample_env SAMPLE_PID_2014) (sample_mouse 0 naga_private_zero) world0
       = Some (0, m', w') /\
     nb_dpimappings (drv_data m') = 82%nat /\
     led_states (drv_data m') = [RAZER_LED_ON; RAZER_LED_ON; RAZER_LED_ON] /\
     command_init_resolution (drv_data m') = Some init_resolution_8200) /\
  (exists m' w',
     razer_naga_init sample_dev_ok SAMPLE_PID_EPIC SAMPLE_PID_2014
       (sample_env SAMPLE_PID_HEX) (sample_mouse 0 naga_private_zero) world0
       = Some (0, m', w') /\
     nb_dpimappings (drv_data m') = 56%nat /\
     led_states (drv_data m') !! NAGA_LED_THUMB_GRID = Some RAZER_LED_UNKNOWN /\
     command_init_resolution (drv_data m') = Some init_resolution_5600).
Proof.
  split.
  - eassert (razer_naga_init sample_dev_ok SAMPLE_PID_EPIC SAMPLE_PID_2014
               (sample_env SAMPLE_PID_2014) (sample_mouse 0 naga_private_zero)
               world0 = Some (0, _, _)) as H by (vm_compute; reflexivity).
    destruct (attach_variant sample_dev_ok SAMPLE_PID_EPIC SAMPLE_PID_2014
                SAMPLE_PID_CLASSIC SAMPLE_PID_2012 SAMPLE_PID_HEX
                SAMPLE_PID_HEX_V2 _ _ _ _ _ H) as [A _].
    destruct (A eq_refl) as (Hn & _ & Hl & Hv).
    eexists _, _. split; [exact H|]. auto.
  - eassert (razer_naga_init sample_dev_ok SAMPLE_PID_EPIC SAMPLE_PID_2014
               (sample_env SAMPLE_PID_HEX) (sample_mouse 0 naga_private_zero)
               world0 = Some (0, _, _)) as H by (vm_compute; reflexivity).
    destruct (attach_variant sample_dev_ok SAMPLE_PID_EPIC SAMPLE_PID_2014
                SAMPLE_PID_CLASSIC SAMPLE_PID_2012 SAMPLE_PID_HEX
                SAMPLE_PID_HEX_V2 _ _ _ _ _ H) as [_ B].
    destruct (B sample_pids_distinct) as (Hn & _ & Ht & _ & Hv).
    { cbn [idProduct sample_env]. do 3 right. left. }
    eexists _, _. split; [exact H|]. auto.
Defined.

Lemma attach_default_dpimapping_witness :
  exists m' w',
    razer_naga_init sample_dev_ok SAMPLE_PID_EPIC SAMPLE_PID_2014
      (sample_env SAMPLE_PID_EPIC) (sample_mouse 0 naga_private_zero) world0
      = Some (0, m', w') /\
    cur_dpimapping_X (drv_data m') = Some 9%nat /\
    cur_dpimapping_Y (drv_data m') = Some 9%nat /\
    cur_res (drv_data m') (cur_dpimapping_X (drv_data m')) = Some 1000.
Proof.
  eassert (razer_naga_init sample_dev_ok SAMPLE_PID_EPIC SAMPLE_PID_2014
             (sample_env SAMPLE_PID_EPIC) (sample_mouse 0 naga_private_zero)
             world0 = Some (0, _, _)) as H by (vm_compute; reflexivity).
  destruct (attach_default_dpimapping sample_dev_ok SAMPLE_PID_EPIC
              SAMPLE_PID_2014 _ _ _ _ _ H) as (HX & HY & _ & _ & _ & HR & _).
  eexists _, _. split; [exact H|]. auto.
Defined.


(** * Further properties of the driver *)

(** ** Framing and the command channel *)

Lemma checksum_input_of_signed (cmd : naga_command) :
  take 86 (drop 2 (sign cmd)) = take 86 (drop 2 cmd).
Proof.
  unfold sign, set_checksum.
  rewrite drop_insert_ge by (unfold OFF_checksum; lia).
  apply take_insert_ge. unfold OFF_checksum. lia.
Qed.

(** X1.  Signing is idempotent: the checksum does not cover its own byte,
    so signing a signed packet changes nothing. *)
Theorem sign_idempotent (cmd : naga_command) : sign (sign cmd) = sign cmd.
Proof.
  unfold sign at 1.
  assert (razer_xor8_checksum (drop 2 (sign cmd)) (SIZEOF_naga_command - 4)
          = razer_xor8_checksum (drop 2 cmd) (SIZEOF_naga_command - 4)) as ->.
  { unfold razer_xor8_checksum.
    change (SIZEOF_naga_command - 4)%nat with 86%nat.
    now rewrite checksum_input_of_signed. }
  unfold sign, set_checksum. apply list_insert_insert_eq.
Qed.

Lemma foldr_lxor_acc (l : list Z) (a : Z) :
  foldr Z.lxor a l = Z.lxor (foldr Z.lxor 0 l) a.
Proof.
  induction l as [|b l IH]; cbn [foldr].
  - now rewrite Z.lxor_0_l.
  - now rewrite IH, Z.lxor_assoc.
Qed.

(** X2.  A signed 90-byte packet verifies: the XOR of its bytes 2 through
    88, checksum byte included, is zero. *)
Theorem signed_packet_verifies (cmd : naga_command) :
  length cmd = SIZEOF_naga_command -> Forall is_byte cmd ->
  xor_range 2 89 (sign cmd) = 0.
Proof.
  intros Hlen Hb.
  destruct (razer_xor8_checksum_xor (drop 2 cmd) (SIZEOF_naga_command - 4))
    as [Hx Hbyte]; [now apply Forall_drop|].
  unfold xor_range. change (89 - 2)%nat with (S 86).
  assert (drop 2 (sign cmd) !! 86%nat
          = Some (razer_xor8_checksum (drop 2 cmd) (SIZEOF_naga_command - 4)))
    as H88.
  { rewrite lookup_drop. unfold sign, set_checksum.
    rewrite uint8_id by exact Hbyte.
    apply list_lookup_insert_eq. rewrite Hlen.
    unfold OFF_checksum, SIZEOF_naga_command. lia. }
  rewrite (take_S_r _ _ _ H88), foldr_app. cbn [foldr].
  rewrite checksum_input_of_signed, Z.lxor_0_r, Hx.
  change (SIZEOF_naga_command - 4)%nat with 86%nat.
  rewrite foldr_lxor_acc. apply Z.lxor_nilpotent.
Qed.

Lemma signed_packet_verifies_witness :
  xor_range 2 89 (sign (naga_command_freq 8)) = 0.
Proof.
  apply signed_packet_verifies.
  - reflexivity.
  - apply all_bytes_spec. reflexivity.
Defined.

Section ChannelEdges.
Variable dev : nat -> usb_reply.

(** X3.  [naga_usb_write] issues exactly one control transfer, without
    retry.  It reports success when the transfer moved exactly [size] bytes,
    and also when it moved none: the code returns the transfer's own return
    value on a mismatch, which is 0 then.  Any other outcome is handed back
    as the error. *)
Theorem naga_usb_write_result (request command : Z) (buf : list Z)
    (size : nat) (w : world) :
  let r := rep_ret (dev (w_transfers w)) in
  exists err w',
    naga_usb_write dev request command buf size w = Some (err, w') /\
    (err = 0 <-> r = Z.of_nat size \/ r = 0) /\
    (err <> 0 -> err = r) /\
    w_transfers w' = S (w_transfers w) /\
    usb_calls (w_trace w') = S (usb_calls (w_trace w)).
Proof.
  cbv zeta. unfold naga_usb_write, bind, razer_event_spacing_enter,
    razer_event_spacing_leave, razer_error, tell, emit,
    libusb_control_transfer, ret. cbn [fst w_transfers w_trace].
  unfold transfer_failed.
  set (r := rep_ret (dev (w_transfers w))).
  destruct (r <? 0) eqn:Hneg; cbn [orb].
  - apply Z.ltb_lt in Hneg. eexists _, _. split; [reflexivity|].
    cbn [w_transfers w_trace]. rewrite !usb_calls_app. cbn [usb_calls].
    repeat split; try lia; auto.
  - apply Z.ltb_ge in Hneg.
    destruct (r =? Z.of_nat size) eqn:Heq; cbn [negb].
    + apply Z.eqb_eq in Heq. eexists _, _. split; [reflexivity|].
      cbn [w_transfers w_trace]. rewrite !usb_calls_app. cbn [usb_calls].
      repeat split; try lia; auto.
    + apply Z.eqb_neq in Heq. eexists _, _. split; [reflexivity|].
      cbn [w_transfers w_trace]. rewrite !usb_calls_app. cbn [usb_calls].
      repeat split; try lia; auto.
Qed.

(** X4.  [naga_usb_read] retries: it stops at the first of at most three
    transfers that moves exactly [size] bytes and returns 0; when none of
    the three does, it has issued three transfers and returns the return
    value of the last one. *)
Theorem naga_usb_read_retries (request command : Z) (buf : list Z)
    (size : nat) (w : world) :
  exists err buf' w',
    naga_usb_read dev request command buf size w = Some ((err, buf'), w') /\
    if read_ok dev size w 0 then err = 0 /\ w_transfers w' = (w_transfers w + 1)%nat
    else if read_ok dev size w 1 then
      err = 0 /\ w_transfers w' = (w_transfers w + 2)%nat
    else if read_ok dev size w 2 then
      err = 0 /\ w_transfers w' = (w_transfers w + 3)%nat
    else err = rep_ret (dev (w_transfers w + 2)) /\
         w_transfers w' = (w_transfers w + 3)%nat.
Proof.
  unfold read_ok, naga_usb_read.
  cbn [naga_usb_read_loop].
  unfold bind, razer_event_spacing_enter, razer_event_spacing_leave,
    razer_error, tell, emit, libusb_control_transfer, ret.
  cbn [w_transfers w_trace].
  replace (w_transfers w + 0)%nat with (w_transfers w) by lia.
  replace (w_transfers w + 1)%nat with (S (w_transfers w)) by lia.
  replace (w_transfers w + 2)%nat with (S (S (w_transfers w))) by lia.
  replace (w_transfers w + 3)%nat with (S (S (S (w_transfers w)))) by lia.
  destruct (transfer_failed (rep_ret (dev (w_transfers w))) size) eqn:H0;
    cbn [negb w_transfers w_trace].
  2:{ rewrite ?H0. eexists _, _, _. split; [reflexivity|]. auto. }
  destruct (transfer_failed (rep_ret (dev (S (w_transfers w)))) size) eqn:H1;
    cbn [negb w_transfers w_trace].
  2:{ rewrite ?H1. eexists _, _, _. split; [reflexivity|]. auto. }
  destruct (transfer_failed (rep_ret (dev (S (S (w_transfers w))))) size) eqn:H2;
    cbn [negb w_transfers w_trace].
  2:{ rewrite ?H2. eexists _, _, _. split; [reflexivity|]. auto. }
  rewrite ?H2. eexists _, _, _. split; [reflexivity|]. auto.
Qed.

(** X5.  When the write of [naga_send_command] fails with a non-zero
    result, the exchange ends there: the error is handed back, one transfer
    was issued, no read is attempted, and the buffer is the signed
    request. *)
Theorem naga_send_command_write_failure (cmd : naga_command) (w : world) :
  let r := rep_ret (dev (w_transfers w)) in
  transfer_failed r SIZEOF_naga_command = true -> r <> 0 ->
  exists w',
    naga_send_command dev cmd w = Some ((r, sign cmd), w') /\
    w_transfers w' = S (w_transfers w) /\
    usb_calls (w_trace w') = S (usb_calls (w_trace w)).
Proof.
  cbv zeta. intros Hfail Hr. unfold naga_send_command, naga_usb_write.
  unfold bind, razer_event_spacing_enter, razer_event_spacing_leave,
    razer_error, tell, emit, libusb_control_transfer, ret.
  cbn [fst w_transfers w_trace]. rewrite Hfail.
  apply Z.eqb_neq in Hr. rewrite Hr. cbn [negb].
  eexists. split; [reflexivity|]. cbn [w_transfers w_trace].
  rewrite !usb_calls_app. cbn [usb_calls]. split; lia.
Qed.

(** X6.  When the write and the first read of [naga_send_command] move 90
    bytes each, the exchange returns 0 and the buffer holds the device's
    answer, whatever the status byte of the answer says; two transfers were
    issued and the signed request is the one packet sent. *)
Theorem naga_send_command_answer (cmd : naga_command) (w : world) :
  let n := w_transfers w in
  length cmd = SIZEOF_naga_command ->
  rep_ret (dev n) = Z.of_nat SIZEOF_naga_command ->
  rep_ret (dev (S n)) = Z.of_nat SIZEOF_naga_command ->
  length (rep_data (dev (S n))) = SIZEOF_naga_command ->
  Forall is_byte (rep_data (dev (S n))) ->
  exists w',
    naga_send_command dev cmd w = Some ((0, rep_data (dev (S n))), w') /\
    w_transfers w' = S (S n) /\
    sent_packets (w_trace w') = sent_packets (w_trace w) ++ [sign cmd].
Proof.
  cbv zeta. intros Hlen H0 H1 Hdl Hdb.
  unfold naga_send_command, naga_usb_write, naga_usb_read.
  cbn [naga_usb_read_loop].
  unfold bind, razer_event_spacing_enter, razer_event_spacing_leave,
    razer_error, tell, emit, libusb_control_transfer, ret.
  assert (transfer_failed (Z.of_nat SIZEOF_naga_command) SIZEOF_naga_command
          = false) as Hf by reflexivity.
  cbn [fst w_transfers w_trace]. rewrite H0, Hf.
  cbn [negb Z.eqb w_transfers w_trace]. rewrite H1, Hf.
  cbn [negb Z.eqb w_transfers w_trace]. rewrite Hf.
  cbn [negb Z.eqb w_transfers w_trace].
  assert (take (length (sign cmd))
            ((uint8 <$> take SIZEOF_naga_command (rep_data (dev (S (w_transfers w)))))
             ++ drop (length (uint8 <$> take SIZEOF_naga_command
                                (rep_data (dev (S (w_transfers w))))))
                  (sign cmd))
          = rep_data (dev (S (w_transfers w)))) as ->.
  { rewrite (take_ge (rep_data (dev (S (w_transfers w)))) SIZEOF_naga_command)
      by (rewrite Hdl; reflexivity).
    assert (uint8 <$> rep_data (dev (S (w_transfers w)))
            = rep_data (dev (S (w_transfers w)))) as ->.
    { clear Hdl. induction Hdb as [|b l Hb Hl IH]; [reflexivity|].
      cbn [fmap list_fmap]. rewrite uint8_id by exact Hb. f_equal. exact IH. }
    rewrite sign_length, Hlen, Hdl.
    rewrite drop_ge by (rewrite sign_length, Hlen; reflexivity).
    rewrite app_nil_r. apply take_ge. rewrite Hdl. reflexivity. }
  assert (take SIZEOF_naga_command (sign cmd) = sign cmd) as Ht.
  { apply take_ge. rewrite sign_length, Hlen. reflexivity. }
  match goal with |- context [if ?c then _ else _] => destruct c end.
  - eexists. split; [reflexivity|]. cbn [w_transfers w_trace].
    split; [reflexivity|].
    rewrite !sent_packets_app. cbn [sent_packets].
    rewrite !app_nil_r, Ht. reflexivity.
  - eexists. split; [reflexivity|]. cbn [w_transfers w_trace].
    split; [reflexivity|].
    rewrite !sent_packets_app. cbn [sent_packets].
    rewrite !app_nil_r, Ht. reflexivity.
Qed.

End ChannelEdges.

Lemma naga_send_command_write_failure_witness :
  exists w',
    naga_send_command sample_dev_dead (naga_command_freq 8) world0
      = Some ((-7, sign (naga_command_freq 8)), w') /\
    w_transfers w' = 1%nat /\
    usb_calls (w_trace w') = 1%nat.
Proof.
  apply (naga_send_command_write_failure sample_dev_dead (naga_command_freq 8)
           world0); [reflexivity|discriminate].
Defined.

Lemma naga_send_command_answer_witness :
  exists w',
    naga_send_command sample_dev_odd_status (naga_command_freq 8) world0
      = Some ((0, 255 :: replicate 89 0), w') /\
    w_transfers w' = 2%nat /\
    sent_packets (w_trace w') =
      sent_packets (w_trace world0) ++ [sign (naga_command_freq 8)].
Proof.
  apply (naga_send_command_answer sample_dev_odd_status (naga_command_freq 8)
           world0); try reflexivity.
  apply all_bytes_spec. reflexivity.
Defined.

(** ** Staging and flushing *)

(** X7.  A LED toggle succeeds only on a claimed device, for an existing
    LED id and a state that is on or off.  It then stores the state for that
    LED alone, sets [commit_pending], and the next flush carries the LED
    command of this LED, whose value bytes are the LED's two-byte protocol id
    followed by the new state as enable byte. *)
Theorem led_toggle_staged (m m' : razer_mouse) (led_id : nat) (new_state : Z) :
  naga_led_toggle m led_id new_state = Some (0, m') ->
  claim_count m <> 0%nat /\
  (led_id < NAGA_NR_LEDS)%nat /\
  (new_state = RAZER_LED_OFF \/ new_state = RAZER_LED_ON) /\
  led_states (drv_data m') !! led_id = Some new_state /\
  (forall j, j <> led_id ->
     led_states (drv_data m') !! j = led_states (drv_data m) !! j) /\
  commit_pending (drv_data m') = true /\
  naga_command_led led_id new_state ∈ commit_led_commands (drv_data m') /\
  cmd_values (naga_command_led led_id new_state)
    = naga_leds_values led_id ++ [new_state; 0; 0].
Proof.
  unfold naga_led_toggle.
  destruct (Nat.leb_spec NAGA_NR_LEDS led_id) as [Hge|Hlt]; [discriminate|].
  destruct (new_state =? RAZER_LED_OFF) eqn:Hoff;
    destruct (new_state =? RAZER_LED_ON) eqn:Hon; cbn [negb andb];
    try discriminate.
  all: destruct (led_states (drv_data m) !! led_id) as [st|] eqn:Hst;
    [|discriminate]; cbn [mbind option_bind].
  all: destruct (st =? RAZER_LED_UNKNOWN); [discriminate|].
  all: destruct (Nat.eqb_spec (claim_count m) 0) as [|Hc]; [discriminate|].
  all: intros [= <-].
  all: cbn [drv_data set_drv_data led_states set_commit_pending set_led_state
            commit_pending].
  all: assert (new_state = RAZER_LED_OFF \/ new_state = RAZER_LED_ON) as Hs
    by (first [left; now apply Z.eqb_eq | right; now apply Z.eqb_eq]).
  all: assert (<[led_id:=new_state]> (led_states (drv_data m)) !! led_id
               = Some new_state) as Hnew
    by (apply list_lookup_insert_eq; now apply lookup_lt_Some with st).
  all: split; [exact Hc|]; split; [exact Hlt|]; split; [exact Hs|];
       split; [exact Hnew|];
       split; [intros j Hj; now apply list_lookup_insert_ne|];
       split; [reflexivity|].
  all: split;
    [ unfold commit_led_commands; apply list_elem_of_omap; exists led_id;
      split; [apply elem_of_seq; lia|];
      cbn [led_states set_commit_pending set_led_state]; rewrite Hnew;
      cbn [mbind option_bind];
      destruct Hs as [-> | ->]; reflexivity
    | unfold NAGA_NR_LEDS in Hlt;
      destruct led_id as [|[|[|?]]]; [| | |lia];
      destruct Hs as [-> | ->]; reflexivity ].
Qed.

Lemma led_toggle_staged_witness :
  let m := sample_mouse 1 (sample_priv SAMPLE_PID_CLASSIC) in
  exists m',
    naga_led_toggle m NAGA_LED_SCROLL RAZER_LED_OFF = Some (0, m') /\
    led_states (drv_data m') !! NAGA_LED_SCROLL = Some RAZER_LED_OFF /\
    commit_pending (drv_data m') = true /\
    naga_command_led NAGA_LED_SCROLL RAZER_LED_OFF
      ∈ commit_led_commands (drv_data m') /\
    cmd_values (naga_command_led NAGA_LED_SCROLL RAZER_LED_OFF) = [1; 1; 0; 0; 0].
Proof.
  cbv zeta.
  eassert (naga_led_toggle (sample_mouse 1 (sample_priv SAMPLE_PID_CLASSIC))
             NAGA_LED_SCROLL RAZER_LED_OFF = Some (0, _)) as H
    by (vm_compute; reflexivity).
  destruct (led_toggle_staged _ _ _ _ H) as (_ & _ & _ & A & _ & B & C & D).
  eexists. split; [exact H|]. auto.
Defined.

(** X8.  [naga_supported_freqs] answers [-ENOMEM] when its allocation
    fails, otherwise the count of its list.  The frequencies the flush
    accepts are exactly the listed ones and the unspecified one; the device
    codes are 8 for 125 Hz, 2 for 500 Hz and 1 for 1000 Hz or unspecified,
    and the code is the first value byte of the frequency command. *)
Theorem supported_freqs_have_codes :
  naga_supported_freqs false = (- ENOMEM, []) /\
  fst (naga_supported_freqs true)
    = Z.of_nat (length (snd (naga_supported_freqs true))) /\
  (forall f, is_Some (naga_freq_code f) <->
     f ∈ snd (naga_supported_freqs true) \/ f = RAZER_MOUSE_FREQ_UNKNOWN) /\
  (forall f c, naga_freq_code f = Some c ->
     (c = 8 /\ f = RAZER_MOUSE_FREQ_125HZ) \/
     (c = 2 /\ f = RAZER_MOUSE_FREQ_500HZ) \/
     (c = 1 /\ (f = RAZER_MOUSE_FREQ_1000HZ \/ f = RAZER_MOUSE_FREQ_UNKNOWN))) /\
  (forall c, is_byte c -> cmd_values (naga_command_freq c) = [c; 0; 0; 0; 0]).
Proof.
  split; [reflexivity|]. split; [reflexivity|]. split; [|split].
  - intros f. unfold naga_freq_code, naga_supported_freqs. cbn [negb snd].
    destruct (Z.eqb_spec f RAZER_MOUSE_FREQ_125HZ) as [->|H1].
    { split; [intros _; left; left | intros _; eexists; reflexivity]. }
    destruct (Z.eqb_spec f RAZER_MOUSE_FREQ_500HZ) as [->|H2].
    { split; [intros _; left; right; left | intros _; eexists; reflexivity]. }
    destruct (Z.eqb_spec f RAZER_MOUSE_FREQ_1000HZ) as [->|H3].
    { split; [intros _; left; do 2 right; left | intros _; eexists; reflexivity]. }
    destruct (Z.eqb_spec f RAZER_MOUSE_FREQ_UNKNOWN) as [->|H4].
    { split; [intros _; now right | intros _; eexists; reflexivity]. }
    cbn [orb]. split.
    + intros [c Hc]. discriminate.
    + intros [Hin|Heq]; [|contradiction].
      apply list_elem_of_In in Hin. simpl in Hin.
      destruct Hin as [<-|[<-|[<-|[]]]]; contradiction.
  - intros f c. unfold naga_freq_code.
    destruct (Z.eqb_spec f RAZER_MOUSE_FREQ_125HZ) as [->|H1];
      [intros [= <-]; auto|].
    destruct (Z.eqb_spec f RAZER_MOUSE_FREQ_500HZ) as [->|H2];
      [intros [= <-]; auto|].
    destruct (Z.eqb_spec f RAZER_MOUSE_FREQ_1000HZ) as [->|H3];
      [intros [= <-]; auto|].
    destruct (Z.eqb_spec f RAZER_MOUSE_FREQ_UNKNOWN) as [->|H4];
      [intros [= <-]; auto|].
    discriminate.
  - intros c Hc. unfold naga_command_freq.
    transitivity [uint8 c; 0; 0; 0; 0]; [reflexivity|].
    now rewrite uint8_id.
Qed.

Lemma supported_freqs_have_codes_witness :
  naga_freq_code RAZER_MOUSE_FREQ_500HZ = Some 2 /\
  cmd_values (naga_command_freq 2) = [2; 0; 0; 0; 0].
Proof.
  destruct supported_freqs_have_codes as (_ & _ & _ & _ & D).
  split; [reflexivity|]. apply D. unfold is_byte. lia.
Defined.

(** X9.  On a claimed device the getters read back what the setters
    staged: the frequency; the mapping of one axis, the other axis keeping
    its own; both mappings after a set without axis.  A get without axis
    reads the X mapping, and a get for any axis id from 2 on answers the null
    pointer. *)
Theorem get_after_set (m : razer_mouse) :
  claim_count m <> 0%nat ->
  (forall f, naga_get_freq (snd (naga_set_freq m f)) = f) /\
  (forall d,
     let m' := snd (naga_set_dpimapping m (Some {| axis_id := 0 |}) d) in
     naga_get_dpimapping m' (Some {| axis_id := 0 |}) = d /\
     naga_get_dpimapping m' None = d /\
     naga_get_dpimapping m' (Some {| axis_id := 1 |})
       = naga_get_dpimapping m (Some {| axis_id := 1 |})) /\
  (forall d,
     let m' := snd (naga_set_dpimapping m (Some {| axis_id := 1 |}) d) in
     naga_get_dpimapping m' (Some {| axis_id := 1 |}) = d /\
     naga_get_dpimapping m' (Some {| axis_id := 0 |})
       = naga_get_dpimapping m (Some {| axis_id := 0 |})) /\
  (forall d,
     let m' := snd (naga_set_dpimapping m None d) in
     naga_get_dpimapping m' (Some {| axis_id := 0 |}) = d /\
     naga_get_dpimapping m' (Some {| axis_id := 1 |}) = d /\
     naga_get_dpimapping m' None = d) /\
  (forall id, (2 <= id)%nat ->
     naga_get_dpimapping m (Some {| axis_id := id |}) = None).
Proof.
  intros Hc. apply Nat.eqb_neq in Hc.
  unfold naga_get_freq, naga_set_freq, naga_set_dpimapping, naga_get_dpimapping.
  rewrite Hc. cbn.
  repeat split.
  intros id Hid. destruct id as [|[|id]]; [lia|lia|reflexivity].
Qed.

Lemma get_after_set_witness :
  let m := sample_mouse 1 (sample_priv SAMPLE_PID_2014) in
  naga_get_freq (snd (naga_set_freq m RAZER_MOUSE_FREQ_125HZ))
    = RAZER_MOUSE_FREQ_125HZ /\
  naga_get_dpimapping (snd (naga_set_dpimapping m None (Some 81%nat))) None
    = Some 81%nat /\
  naga_get_dpimapping m (Some {| axis_id := 2 |}) = None.
Proof.
  cbv zeta.
  destruct (get_after_set (sample_mouse 1 (sample_priv SAMPLE_PID_2014)))
    as (A & _ & _ & D & E).
  - simpl. lia.
  - split; [apply A|]. split; [apply D|]. apply E. lia.
Defined.


Section OperationFacts.
Variable dev : nat -> usb_reply.

Lemma naga_commit_cases (m m' : razer_mouse) (force : bool) (w w' : world)
    (err : Z) :
  naga_commit dev m force w = Some (err, m', w') ->
  (err <> 0 /\ m' = m) \/
  (err = 0 /\ m' = m /\ w' = w /\ claim_count m <> 0%nat /\
   commit_pending (drv_data m) = false /\ force = false) \/
  (err = 0 /\ claim_count m <> 0%nat /\
   m' = set_drv_data (set_commit_pending false (drv_data m)) m).
Proof.
  unfold naga_commit.
  destruct (Nat.eqb_spec (claim_count m) 0) as [Hc|Hc].
  { intros [= <- <- <-]. left. split; [discriminate|reflexivity]. }
  destruct (commit_pending (drv_data m)) eqn:Hp; cbn [orb].
  - unfold bind. destruct (naga_do_commit dev (drv_data m) w) as [[e w1]|];
      [|discriminate].
    destruct (Z.eqb_spec e 0) as [->|He]; intros [= <- <- <-];
      [right; right; auto | left; auto].
  - destruct force.
    + unfold bind. destruct (naga_do_commit dev (drv_data m) w) as [[e w1]|];
        [|discriminate].
      destruct (Z.eqb_spec e 0) as [->|He]; intros [= <- <- <-];
        [right; right; auto | left; auto].
    + intros [= <- <- <-]. right. left. repeat split; auto.
Qed.

(** X10.  No sequence of surface operations touches what attach fixed:
    the claim count, the firmware advisory and version, the number of
    mapping slots, the bound resolution builder, the mapping table and the
    size of the LED array are as before. *)
Theorem operations_keep_configuration (ops : list naga_op)
    (m m' : razer_mouse) (w w' : world) :
  run_ops dev ops m w = Some (m', w') ->
  claim_count m' = claim_count m /\
  suggest_fwup m' = suggest_fwup m /\
  fw_version (drv_data m') = fw_version (drv_data m) /\
  nb_dpimappings (drv_data m') = nb_dpimappings (drv_data m) /\
  command_init_resolution (drv_data m') = command_init_resolution (drv_data m) /\
  dpimapping (drv_data m') = dpimapping (drv_data m) /\
  length (led_states (drv_data m')) = length (led_states (drv_data m)).
Proof.
  revert m w. induction ops as [|op ops IH]; intros m w.
  - intros [= <- <-]. repeat split.
  - cbn [run_ops]. unfold bind.
    destruct (run_op dev op m w) as [[[err m1] w1]|] eqn:Hop; [|discriminate].
    cbn [snd]. intros Hrest. specialize (IH m1 w1 Hrest).
    assert (claim_count m1 = claim_count m /\
            suggest_fwup m1 = suggest_fwup m /\
            fw_version (drv_data m1) = fw_version (drv_data m) /\
            nb_dpimappings (drv_data m1) = nb_dpimappings (drv_data m) /\
            command_init_resolution (drv_data m1)
              = command_init_resolution (drv_data m) /\
            dpimapping (drv_data m1) = dpimapping (drv_data m) /\
            length (led_states (drv_data m1)) = length (led_states (drv_data m)))
      as Hstep.
    { clear IH Hrest. destruct op as [force|led_id new_state|freq|axis d];
        cbn [run_op] in Hop.
      - apply naga_commit_cases in Hop
          as [[_ ->]|[(_ & -> & _)|(_ & _ & ->)]]; repeat split.
      - unfold naga_led_toggle, lift, ret, crash in Hop.
        destruct (NAGA_NR_LEDS <=? led_id)%nat;
          [injection Hop as <- <- <-; repeat split|].
        destruct (_ && _); [injection Hop as <- <- <-; repeat split|].
        destruct (led_states (drv_data m) !! led_id) as [st|];
          cbn [mbind option_bind] in Hop; [|discriminate].
        destruct (st =? RAZER_LED_UNKNOWN);
          [injection Hop as <- <- <-; repeat split|].
        destruct (claim_count m =? 0)%nat; injection Hop as <- <- <-;
          repeat split.
        cbn. apply length_insert.
      - unfold naga_set_freq, ret in Hop.
        destruct (claim_count m =? 0)%nat; injection Hop as <- <- <-;
          repeat split.
      - unfold naga_set_dpimapping, ret in Hop.
        destruct (claim_count m =? 0)%nat;
          [injection Hop as <- <- <-; repeat split|].
        destruct axis as [a|]; [|injection Hop as <- <- <-; repeat split].
        destruct (NAGA_NR_AXES <=? axis_id a)%nat;
          [injection Hop as <- <- <-; repeat split|].
        destruct (axis_id a =? 0)%nat;
          [injection Hop as <- <- <-; repeat split|].
        destruct (axis_id a =? 1)%nat; injection Hop as <- <- <-; repeat split. }
    destruct IH as (I1 & I2 & I3 & I4 & I5 & I6 & I7).
    destruct Hstep as (S1 & S2 & S3 & S4 & S5 & S6 & S7).
    repeat split; congruence.
Qed.

(** X11.  An operation that returns an error leaves the whole mouse
    state as it was, and an operation can only succeed on a claimed device.
    The setters never touch the wire and, on success, set [commit_pending];
    a commit that succeeds leaves [commit_pending] clear. *)
Theorem failed_operation_changes_nothing (op : naga_op)
    (m m' : razer_mouse) (w w' : world) (err : Z) :
  run_op dev op m w = Some (err, m', w') ->
  (err <> 0 -> m' = m) /\
  (err = 0 -> claim_count m <> 0%nat) /\
  match op with
  | OpCommit _ => err = 0 -> commit_pending (drv_data m') = false
  | _ => w' = w /\ (err = 0 -> commit_pending (drv_data m') = true)
  end.
Proof.
  destruct op as [force|led_id new_state|freq|axis d]; cbn [run_op].
  - intros Hop.
    apply naga_commit_cases in Hop
      as [[Hne ->]|[(-> & -> & _ & Hc & Hp & _)|(-> & Hc & ->)]].
    + split; [reflexivity|]. split; intros H0; contradiction.
    + split; [reflexivity|]. split; intros _; assumption.
    + split; [intros H; now contradiction H|]. split; intros _;
        [assumption|reflexivity].
  - unfold naga_led_toggle, lift, ret, crash.
    destruct (NAGA_NR_LEDS <=? led_id)%nat;
      [intros [= <- <- <-]; repeat split; auto; discriminate|].
    destruct (_ && _); [intros [= <- <- <-]; repeat split; auto; discriminate|].
    destruct (led_states (drv_data m) !! led_id) as [st|];
      cbn [mbind option_bind]; [|discriminate].
    destruct (st =? RAZER_LED_UNKNOWN);
      [intros [= <- <- <-]; repeat split; auto; discriminate|].
    destruct (Nat.eqb_spec (claim_count m) 0);
      intros [= <- <- <-]; repeat split; auto; try discriminate.
    intros H. now contradiction H.
  - unfold naga_set_freq, ret.
    destruct (Nat.eqb_spec (claim_count m) 0);
      intros [= <- <- <-]; repeat split; auto; try discriminate.
    intros H. now contradiction H.
  - unfold naga_set_dpimapping, ret.
    destruct (Nat.eqb_spec (claim_count m) 0);
      [intros [= <- <- <-]; repeat split; auto; discriminate|].
    destruct axis as [a|].
    2:{ intros [= <- <- <-]; repeat split; auto. intros H. now contradiction H. }
    destruct (NAGA_NR_AXES <=? axis_id a)%nat;
      [intros [= <- <- <-]; repeat split; auto; discriminate|].
    destruct (axis_id a =? 0)%nat.
    { intros [= <- <- <-]; repeat split; auto. intros H. now contradiction H. }
    destruct (axis_id a =? 1)%nat.
    { intros [= <- <- <-]; repeat split; auto. intros H. now contradiction H. }
    intros [= <- <- <-]; repeat split; auto; discriminate.
Qed.

(** X12.  After a commit that succeeded nothing is pending, and a
    further commit without force succeeds without any effect on the world or
    the state. *)
Theorem commit_then_commit_is_idle (m m' : razer_mouse) (force : bool)
    (w w' w2 : world) :
  naga_commit dev m force w = Some (0, m', w') ->
  commit_pending (drv_data m') = false /\
  naga_commit dev m' false w2 = Some (0, m', w2).
Proof.
  intros Hc.
  apply naga_commit_cases in Hc
    as [[Hne _]|[(_ & -> & _ & Hcl & Hp & _)|(_ & Hcl & ->)]].
  - now contradiction Hne.
  - split; [exact Hp|]. unfold naga_commit.
    apply Nat.eqb_neq in Hcl. now rewrite Hcl, Hp.
  - split; [reflexivity|]. unfold naga_commit.
    apply Nat.eqb_neq in Hcl. cbn. now rewrite Hcl.
Qed.


End OperationFacts.

Lemma operations_keep_configuration_witness :
  exists m' w',
    run_ops sample_dev_ok
      [OpLedToggle NAGA_LED_LOGO RAZER_LED_OFF;
       OpSetDpimapping None (Some 20%nat);
       OpSetFreq RAZER_MOUSE_FREQ_125HZ; OpCommit false]
      (sample_mouse 1 (sample_priv SAMPLE_PID_HEX)) world0 = Some (m', w') /\
    nb_dpimappings (drv_data m') = 56%nat /\
    command_init_resolution (drv_data m') = Some init_resolution_5600 /\
    claim_count m' = 1%nat.
Proof.
  eassert (run_ops sample_dev_ok
             [OpLedToggle NAGA_LED_LOGO RAZER_LED_OFF;
              OpSetDpimapping None (Some 20%nat);
              OpSetFreq RAZER_MOUSE_FREQ_125HZ; OpCommit false]
             (sample_mouse 1 (sample_priv SAMPLE_PID_HEX)) world0
           = Some (_, _)) as H by (vm_compute; reflexivity).
  destruct (operations_keep_configuration sample_dev_ok _ _ _ _ _ H)
    as (A & _ & _ & B & C & _).
  eexists _, _. split; [exact H|]. rewrite A, B, C.
  repeat split.
Defined.

Lemma failed_operation_changes_nothing_witness :
  let m := sample_mouse 1 (sample_priv SAMPLE_PID_CLASSIC) in
  exists w',
    run_op sample_dev_dead (OpCommit true) m world0 = Some (-7, m, w').
Proof.
  cbv zeta.
  eassert (run_op sample_dev_dead (OpCommit true)
             (sample_mouse 1 (sample_priv SAMPLE_PID_CLASSIC)) world0
           = Some (-7, _, _)) as H by (vm_compute; reflexivity).
  destruct (failed_operation_changes_nothing sample_dev_dead _ _ _ _ _ _ H)
    as (A & _).
  eexists. rewrite <- (A ltac:(discriminate)) at 2. exact H.
Defined.

Lemma commit_then_commit_is_idle_witness :
  let m := sample_mouse 1
             (set_commit_pending true (sample_priv SAMPLE_PID_2014)) in
  exists m' w',
    naga_commit sample_dev_ok m false world0 = Some (0, m', w') /\
    commit_pending (drv_data m') = false /\
    naga_commit sample_dev_ok m' false w' = Some (0, m', w').
Proof.
  cbv zeta.
  eassert (naga_commit sample_dev_ok
             (sample_mouse 1 (set_commit_pending true (sample_priv SAMPLE_PID_2014)))
             false world0 = Some (0, _, _)) as H by (vm_compute; reflexivity).
  eexists _, _. split; [exact H|].
  exact (commit_then_commit_is_idle sample_dev_ok _ _ _ _ _ _ H).
Defined.


(** ** Firmware version *)

Lemma land_high_byte_small (v : Z) : 0 <= v < 256 -> Z.land v 65280 = 0.
Proof.
  intros Hv. apply Z.bits_inj'. intros n Hn.
  rewrite Z.land_spec, Z.bits_0.
  destruct (Z.lt_ge_cases n 8) as [Hlt|Hge].
  - change 65280 with (255 * 2 ^ 8).
    rewrite Z.mul_pow2_bits_low by lia. apply andb_false_r.
  - replace (Z.testbit v n) with false; [reflexivity|].
    symmetry. destruct (Z.eq_dec v 0) as [->|Hne]; [apply Z.bits_0|].
    apply Z.bits_above_log2; [lia|].
    apply Z.log2_lt_pow2; [lia|].
    apply Z.lt_le_trans with (2 ^ 8); [change (2 ^ 8) with 256; lia|].
    apply Z.pow_le_mono_r; lia.
Qed.

Section ProbeRange.
Variable dev : nat -> usb_reply.

Lemma naga_read_fw_ver_run (w : world) :
  exists r w' k,
    naga_read_fw_ver dev w = Some (r, w') /\
    ((r = - ENODEV /\ k = 5%nat /\
      sent_packets (w_trace w') =
        sent_packets (w_trace w) ++ replicate 5 (sign naga_command_fw_ver)) \/
     (256 <= r < 65536 /\ (k < 5)%nat /\
      sent_packets (w_trace w') =
        sent_packets (w_trace w) ++ replicate (S k) (sign naga_command_fw_ver))) /\
    sleeps (w_trace w') = sleeps (w_trace w) ++ replicate k 250.
Proof.
  destruct (probe_cases dev 5 w)
    as [(k & wk & ver & w' & Hk & Hf & Hp & Hv)|(w5 & Hf)].
  - exists ver, w', k.
    split; [exact (naga_read_fw_ver_loop_success dev 5 k w wk w' ver Hk Hf Hp Hv)|].
    destruct (failed_pokes_trace dev k w wk Hf) as (d & Hext & Hs & Hsl).
    destruct (naga_fw_poke_run dev wk)
      as (e & v & w1 & d1 & Hrun & Hext1 & Hs1 & Hsl1 & Hrange).
    rewrite Hp in Hrun. injection Hrun as <- <- <-.
    assert (256 <= ver) as Hlow.
    { destruct (Z.lt_ge_cases ver 256) as [Hsmall|]; [|assumption].
      exfalso. apply Hv. apply land_high_byte_small. lia. }
    rewrite Hext1, Hext, !sent_packets_app, !sleeps_app, Hs, Hsl, Hs1, Hsl1.
    rewrite app_nil_r, <- !app_assoc. split; [|reflexivity].
    right. split; [lia|]. split; [exact Hk|]. f_equal.
    change [sign naga_command_fw_ver]
      with (replicate 1 (sign naga_command_fw_ver)).
    rewrite <- replicate_add. f_equal. lia.
  - exists (- ENODEV), (emit (EvError FW_ERROR) w5), 5%nat.
    split; [exact (naga_read_fw_ver_loop_exhausted dev 5 w w5 Hf)|].
    destruct (failed_pokes_trace dev 5 w w5 Hf) as (d & Hext & Hs & Hsl).
    unfold emit. cbn [w_trace].
    rewrite Hext, !sent_packets_app, !sleeps_app, Hs, Hsl.
    cbn [sleeps sent_packets]. rewrite !app_nil_r. split; [|reflexivity].
    left. auto.
Qed.


End ProbeRange.

(** X15.  For a 16-bit version word, [NAGA_FW] puts back together what
    [NAGA_FW_MAJOR] and [NAGA_FW_MINOR] take apart (the high and the low
    byte); the probe's test of the high byte is the test that the major
    number is not zero, and a version is below [NAGA_FW (1, 4)] exactly when
    it is below 1.04 as major.minor. *)
Theorem firmware_version_fields (v : Z) :
  0 <= v < 65536 ->
  NAGA_FW (NAGA_FW_MAJOR v) (NAGA_FW_MINOR v) = v /\
  NAGA_FW_MAJOR v = v / 256 /\ NAGA_FW_MINOR v = v mod 256 /\
  (Z.land v 65280 <> 0 <-> NAGA_FW_MAJOR v <> 0) /\
  (v < NAGA_FW 1 4 <->
   NAGA_FW_MAJOR v < 1 \/ (NAGA_FW_MAJOR v = 1 /\ NAGA_FW_MINOR v < 4)).
Proof.
  intros Hv.
  assert ([NAGA_FW_MAJOR v; NAGA_FW_MINOR v] = [v / 256; v mod 256]) as Hb.
  { exact (cpu_to_be16_bytes v Hv). }
  injection Hb as Hmaj Hmin.
  split; [exact (be16_roundtrip v Hv)|].
  split; [exact Hmaj|]. split; [exact Hmin|].
  rewrite Hmaj, Hmin. change (NAGA_FW 1 4) with 260.
  assert (0 <= v / 256 < 256) as Hq.
  { split; [apply Z.div_pos; lia | apply Z.div_lt_upper_bound; lia]. }
  pose proof (Z.div_mod v 256 ltac:(lia)) as Hdm.
  pose proof (Z.mod_pos_bound v 256 ltac:(lia)) as Hm.
  split.
  - split.
    + intros Hl Hz. apply Hl. apply land_high_byte_small. lia.
    + intros Hz Hl. apply Hz.
      destruct (Z.eq_dec (v / 256) 0) as [|Hne]; [assumption|].
      exfalso.
      assert (Z.testbit (Z.land v 65280) (Z.log2 v) = true) as Hbit.
      { rewrite Z.land_spec.
        assert (8 <= Z.log2 v < 16) as Hlog.
        { split.
          - apply Z.log2_le_pow2; [lia|]. change (2 ^ 8) with 256. lia.
          - apply Z.log2_lt_pow2; [lia|]. change (2 ^ 16) with 65536. lia. }
        rewrite Z.bit_log2 by lia. cbn [andb].
        change 65280 with (255 * 2 ^ 8).
        rewrite Z.mul_pow2_bits by lia.
        change 255 with (Z.ones 8). apply Z.ones_spec_low. lia. }
      rewrite Hl, Z.bits_0 in Hbit. discriminate.
  - lia.
Qed.

Lemma firmware_version_fields_witness :
  NAGA_FW (NAGA_FW_MAJOR 260) (NAGA_FW_MINOR 260) = 260 /\
  NAGA_FW_MAJOR 260 = 260 / 256.
Proof.
  destruct (firmware_version_fields 260) as (A & B & _); [lia|].
  split; assumption.
Defined.

(** ** Attach *)

Lemma naga_init_defaults_ready (P pid v : Z) :
  let priv := naga_init_defaults P pid (set_fw_version v naga_private_zero) in
  priv_ready priv /\ commit_pending priv = false /\ fw_version priv = v /\
  naga_freq_code (frequency priv) = Some 1 /\
  frequency priv = RAZER_MOUSE_FREQ_1000HZ.
Proof.
  cbv zeta. unfold naga_init_defaults, priv_ready.
  destruct (pid =? P).
  - split; [split; [reflexivity|eexists; reflexivity]|]. repeat split.
  - split; [split; [reflexivity|eexists; reflexivity]|]. repeat split.
Qed.

Lemma extending_ret {A} (a : A) : extending (ret a).
Proof. intros w a' w' [= <- <-]. exists []. apply extends_refl. Qed.

Lemma extending_tell (e : event) : extending (tell e).
Proof. intros w a w' [= <- <-]. now exists [e]. Qed.

Lemma extending_lift {A} (o : option A) : extending (lift o).
Proof. destruct o; [apply extending_ret | intros w a w' [=]]. Qed.

Lemma extending_bind {A B} (c : M A) (k : A -> M B) :
  extending c -> (forall a, extending (k a)) -> extending (bind c k).
Proof.
  intros Hc Hk w b w' Hrun. apply bind_Some in Hrun as (a & w1 & H1 & H2).
  destruct (Hc _ _ _ H1) as (d1 & Hd1). destruct (Hk _ _ _ _ H2) as (d2 & Hd2).
  exists (d1 ++ d2). eapply extends_trans; eassumption.
Qed.

Section Extending.
Variable dev : nat -> usb_reply.

Lemma extending_send_command (cmd : naga_command) :
  extending (naga_send_command dev cmd).
Proof.
  intros w a w' Hrun.
  destruct (naga_send_command_run dev cmd w)
    as (err & cmd' & w1 & d & Hrun' & Hext & _).
  rewrite Hrun in Hrun'. injection Hrun' as _ <-. now exists d.
Qed.

Lemma extending_fw_ver_loop (n : nat) : extending (naga_read_fw_ver_loop dev n).
Proof.
  induction n as [|n IH]; cbn [naga_read_fw_ver_loop].
  - apply extending_bind; [apply extending_tell|]. intros _. apply extending_ret.
  - apply extending_bind.
    + unfold naga_fw_poke. apply extending_bind; [apply extending_send_command|].
      intros [err cmd]. apply extending_ret.
    + intros [err ver]. destruct (fw_poke_ok err ver); [apply extending_ret|].
      apply extending_bind; [apply extending_tell|]. intros _. exact IH.
Qed.

Lemma extending_do_commit_leds (priv : naga_private) (ids : list nat) :
  extending (naga_do_commit_leds dev priv ids).
Proof.
  induction ids as [|id ids IH]; cbn [naga_do_commit_leds].
  - apply extending_ret.
  - apply extending_bind; [apply extending_lift|]. intros st.
    destruct (st =? RAZER_LED_UNKNOWN); [exact IH|].
    apply extending_bind; [apply extending_send_command|]. intros r.
    destruct (negb _); [apply extending_ret|exact IH].
Qed.

Lemma extending_do_commit (priv : naga_private) :
  extending (naga_do_commit dev priv).
Proof.
  unfold naga_do_commit.
  apply extending_bind; [apply extending_lift|]. intros cmd.
  apply extending_bind; [apply extending_send_command|]. intros r.
  destruct (negb _); [apply extending_ret|].
  apply extending_bind; [apply extending_do_commit_leds|]. intros err.
  destruct (negb _); [apply extending_ret|].
  destruct (naga_freq_code _); [|apply extending_ret].
  apply extending_bind; [apply extending_send_command|]. intros r'.
  destruct (negb _); apply extending_ret.
Qed.

End Extending.

Section AttachRuns.
Variable dev : nat -> usb_reply.
Variables PID_EPIC PID_2014 : Z.

Lemma naga_do_commit_total (priv : naga_private) (w : world) :
  priv_ready priv ->
  exists err w', naga_do_commit dev priv w = Some (err, w').
Proof.
  intros [Hlen [rc Hrc]]. rewrite (naga_do_commit_run dev _ rc w Hlen Hrc).
  destruct (send_in_order_run dev (rc :: commit_led_commands priv) w)
    as (e1 & w1 & k1 & Hrun1 & _).
  { intros c Hc. apply elem_of_cons in Hc as [->|Hc].
    - now apply call_command_init_resolution_length with priv.
    - now apply commit_led_commands_length with priv. }
  rewrite Hrun1. destruct (e1 =? 0); [|eauto].
  destruct (naga_freq_code (frequency priv)) as [f|]; [|eauto].
  destruct (send_in_order_run dev [naga_command_freq f] w1)
    as (e2 & w2 & k2 & Hrun2 & _).
  { intros c Hc. apply list_elem_of_singleton in Hc as ->.
    apply naga_command_freq_length. }
  eauto.
Qed.

(** X16.  [razer_naga_init] always returns, and on every path the claim
    count of the mouse is what it was at the call.  A failing descriptor
    read gives [-EIO] and a failed allocation [-ENOMEM], both before
    anything is touched; a failure to register the interface or to claim the
    device is handed back after the state is freed, with no claim, transfer
    or release made.  Once the claim is taken the run ends, after the claim
    event, with a release, followed by the free exactly when it failed. *)
Theorem attach_always_returns (env : attach_env) (m : razer_mouse) (w : world) :
  exists err m' w',
    razer_naga_init dev PID_EPIC PID_2014 env m w = Some (err, m', w') /\
    claim_count m' = claim_count m /\
    (desc_err env <> 0 -> err = - EIO /\ m' = m /\
       w' = emit (EvError "hw_naga: Failed to get device descriptor") w) /\
    (desc_err env = 0 -> zalloc_ok env = false ->
       err = - ENOMEM /\ m' = m /\ w' = w) /\
    (desc_err env = 0 -> zalloc_ok env = true ->
     add_used_interface_err env <> 0 ->
       err = add_used_interface_err env /\ w' = emit EvFree w) /\
    (desc_err env = 0 -> zalloc_ok env = true ->
     add_used_interface_err env = 0 -> claim_err env <> 0 ->
       err = claim_err env /\
       w' = emit EvFree (emit (EvError "hw_naga: Failed to claim device") w)) /\
    (desc_err env = 0 -> zalloc_ok env = true ->
     add_used_interface_err env = 0 -> claim_err env = 0 ->
       exists d, w_trace w' = w_trace w ++ [EvClaim] ++ d ++
                   (if err =? 0 then [EvRelease] else [EvRelease; EvFree])).
Proof.
  unfold razer_naga_init.
  destruct (Z.eqb_spec (desc_err env) 0) as [Hdesc|Hdesc]; cbn [negb].
  2:{ unfold bind, razer_error, tell, ret. eexists _, _, _.
      split; [reflexivity|]. split; [reflexivity|].
      repeat split; intros; try contradiction; reflexivity. }
  destruct (zalloc_ok env) eqn:Halloc; cbn [negb].
  2:{ unfold ret. eexists _, _, _. split; [reflexivity|]. split; [reflexivity|].
      repeat split; intros; try contradiction; try discriminate; reflexivity. }
  destruct (Z.eqb_spec (add_used_interface_err env) 0) as [Hadd|Hadd]; cbn [negb].
  2:{ unfold bind, tell, ret. eexists _, _, _. split; [reflexivity|].
      split; [reflexivity|].
      repeat split; intros; try contradiction; try discriminate; reflexivity. }
  unfold mouse_claim.
  destruct (Z.eqb_spec (claim_err env) 0) as [Hclaim|Hclaim].
  2:{ unfold bind, razer_error, tell, ret. cbn [negb].
      destruct (Z.eqb_spec (claim_err env) 0); [contradiction|]. cbn [negb].
      eexists _, _, _. split; [reflexivity|]. split; [reflexivity|].
      repeat split; intros; try contradiction; try discriminate; reflexivity. }
  unfold bind at 1. unfold bind at 1. unfold tell, ret at 1.
  cbn [Z.eqb negb]. unfold bind at 1.
  destruct (naga_read_fw_ver_run dev (emit EvClaim w))
    as (fwver & w1 & k & Hfw & _).
  destruct (extending_fw_ver_loop dev 5 (emit EvClaim w) fwver w1 Hfw)
    as (d1 & Hd1). unfold extends in Hd1.
  rewrite Hfw.
  destruct (fwver <? 0) eqn:Hneg.
  { unfold bind, mouse_release, tell, ret.
    cbn [claim_count set_claim_count set_drv_data Nat.eqb].
    assert (fwver <> 0) as Hnz by (apply Z.ltb_lt in Hneg; lia).
    apply Z.eqb_neq in Hnz.
    eexists _, _, _. split; [reflexivity|].
    split; [cbn; lia|].
    repeat split; intros; try contradiction; try discriminate.
    rewrite Hnz. exists d1. unfold emit in *. cbn [w_trace] in *.
    rewrite Hd1, <- !app_assoc. reflexivity. }
  unfold bind at 1.
  set (priv := naga_init_defaults PID_2014 (idProduct env)
                 (set_fw_version (uint16 fwver) naga_private_zero)).
  destruct (naga_init_defaults_ready PID_2014 (idProduct env) (uint16 fwver))
    as (Hready & _).
  fold priv in Hready.
  match goal with |- context [if ?c then _ else ret ?mm] => destruct c end.
  - unfold bind at 1. unfold razer_error, tell, ret at 1. unfold bind at 1.
    destruct (naga_do_commit_total priv (emit (EvError ADVISORY) w1) Hready)
      as (err & w2 & Hcommit).
    destruct (extending_do_commit dev _ _ _ _ Hcommit) as (d2 & Hd2).
    unfold extends in Hd2.
    fold priv. fold ADVISORY. rewrite Hcommit.
    destruct (err =? 0) eqn:He; cbn [negb].
    + unfold bind, mouse_release, tell, ret.
      cbn [claim_count set_claim_count set_drv_data set_suggest_fwup Nat.eqb].
      eexists _, _, _. split; [reflexivity|]. split; [cbn; lia|].
      repeat split; intros; try contradiction; try discriminate.
      cbn [Z.eqb]. exists (d1 ++ [EvError ADVISORY] ++ d2).
      unfold emit in *. cbn [w_trace] in *.
      rewrite Hd2, Hd1, <- !app_assoc. reflexivity.
    + unfold bind, mouse_release, razer_error, tell, ret.
      cbn [claim_count set_claim_count set_drv_data set_suggest_fwup Nat.eqb].
      eexists _, _, _. split; [reflexivity|]. split; [cbn; lia|].
      repeat split; intros; try contradiction; try discriminate.
      rewrite He.
      exists (d1 ++ [EvError ADVISORY] ++ d2
              ++ [EvError "hw_naga: Failed to commit initial settings"]).
      unfold emit in *. cbn [w_trace] in *.
      rewrite Hd2, Hd1, <- !app_assoc. reflexivity.
  - unfold ret at 1. unfold bind at 1.
    destruct (naga_do_commit_total priv w1 Hready) as (err & w2 & Hcommit).
    destruct (extending_do_commit dev _ _ _ _ Hcommit) as (d2 & Hd2).
    unfold extends in Hd2.
    fold priv. rewrite Hcommit.
    destruct (err =? 0) eqn:He; cbn [negb].
    + unfold bind, mouse_release, tell, ret.
      cbn [claim_count set_claim_count set_drv_data set_suggest_fwup Nat.eqb].
      eexists _, _, _. split; [reflexivity|]. split; [cbn; lia|].
      repeat split; intros; try contradiction; try discriminate.
      cbn [Z.eqb]. exists (d1 ++ d2).
      unfold emit in *. cbn [w_trace] in *.
      rewrite Hd2, Hd1, <- !app_assoc. reflexivity.
    + unfold bind, mouse_release, razer_error, tell, ret.
      cbn [claim_count set_claim_count set_drv_data set_suggest_fwup Nat.eqb].
      eexists _, _, _. split; [reflexivity|]. split; [cbn; lia|].
      repeat split; intros; try contradiction; try discriminate.
      rewrite He.
      exists (d1 ++ d2 ++ [EvError "hw_naga: Failed to commit initial settings"]).
      unfold emit in *. cbn [w_trace] in *.
      rewrite Hd2, Hd1, <- !app_assoc. reflexivity.
Qed.

Lemma razer_naga_init_inv (env : attach_env) (m m' : razer_mouse)
    (w w' : world) :
  razer_naga_init dev PID_EPIC PID_2014 env m w = Some (0, m', w') ->
  exists fwver w1 w3,
    let priv := naga_init_defaults PID_2014 (idProduct env)
                  (set_fw_version (uint16 fwver) naga_private_zero) in
    let advised := (idProduct env =? PID_EPIC) && (uint16 fwver <? NAGA_FW 1 4) in
    naga_read_fw_ver dev (emit EvClaim w) = Some (fwver, w1) /\
    0 <= fwver /\
    naga_do_commit dev priv
      (if advised then emit (EvError ADVISORY) w1 else w1) = Some (0, w3) /\
    w' = emit EvRelease w3 /\
    drv_data m' = priv /\
    suggest_fwup m' = suggest_fwup m || advised.
Proof.
  unfold razer_naga_init.
  destruct (desc_err env =? 0); cbn [negb].
  2:{ unfold bind, razer_error, tell, ret. intros H. inversion H. }
  destruct (zalloc_ok env); cbn [negb].
  2:{ unfold ret. intros H. inversion H. }
  destruct (add_used_interface_err env =? 0) eqn:Hadd; cbn [negb].
  2:{ unfold bind, tell, ret. intros [= H]. rewrite H in Hadd. discriminate. }
  unfold mouse_claim.
  destruct (claim_err env =? 0) eqn:Hclaim.
  2:{ unfold bind, razer_error, tell, ret. cbn [negb].
      rewrite Hclaim. cbn [negb]. intros [= H]. rewrite H in Hclaim. discriminate. }
  unfold bind at 1. unfold bind at 1. unfold tell, ret at 1.
  cbn [Z.eqb negb].
  unfold bind at 1.
  destruct (naga_read_fw_ver dev _) as [[fwver w1]|] eqn:Hfw; [|discriminate].
  destruct (fwver <? 0) eqn:Hneg.
  { unfold bind. destruct (mouse_release _ w1) as [[m1 w2]|]; [|discriminate].
    unfold tell, ret. intros [= H]. subst. discriminate. }
  apply Z.ltb_ge in Hneg.
  unfold bind at 1. cbn [fw_version set_fw_version].
  destruct ((idProduct env =? PID_EPIC) && (uint16 fwver <? NAGA_FW 1 4))
    eqn:Hadv.
  - unfold bind at 1. unfold razer_error, tell, ret at 1.
    unfold bind at 1.
    destruct (naga_do_commit dev _ _) as [[err w2]|] eqn:Hcommit; [|discriminate].
    destruct (Z.eqb_spec err 0) as [->|He]; cbn [negb].
    + unfold bind, mouse_release, tell, ret.
      cbn [claim_count set_claim_count set_drv_data set_suggest_fwup Nat.eqb].
      intros [= <- <-]. exists fwver, w1, w2. cbv zeta.
      rewrite Hadv. cbv iota.
      split; [reflexivity|]. split; [exact Hneg|]. split; [exact Hcommit|].
      split; [reflexivity|]. split; [reflexivity|].
      cbn. now rewrite orb_true_r.
    + unfold bind, mouse_release, razer_error, tell, ret.
      cbn [claim_count set_claim_count set_drv_data set_suggest_fwup Nat.eqb].
      intros [= H]. contradiction.
  - unfold ret at 1. unfold bind at 1.
    destruct (naga_do_commit dev _ _) as [[err w2]|] eqn:Hcommit; [|discriminate].
    destruct (Z.eqb_spec err 0) as [->|He]; cbn [negb].
    + unfold bind, mouse_release, tell, ret.
      cbn [claim_count set_claim_count set_drv_data set_suggest_fwup Nat.eqb].
      intros [= <- <-]. exists fwver, w1, w2. cbv zeta.
      rewrite Hadv. cbv iota.
      split; [reflexivity|]. split; [exact Hneg|]. split; [exact Hcommit|].
      split; [reflexivity|]. split; [reflexivity|].
      cbn. now rewrite orb_false_r.
    + unfold bind, mouse_release, razer_error, tell, ret.
      cbn [claim_count set_claim_count set_drv_data set_suggest_fwup Nat.eqb].
      intros [= H]. contradiction.
Qed.

(** X17.  After a successful attach nothing is pending, the frequency is
    1000 Hz, the state can be flushed, and the firmware version is the value
    the probe returned, between 256 and 65535.  The firmware advisory is set
    exactly when it was set before or the product is the Epic and the
    version is below 1.04.  A commit without force on the freshly attached,
    claimed device does nothing. *)
Theorem attach_result_state (env : attach_env) (m m' : razer_mouse)
    (w w' : world) :
  razer_naga_init dev PID_EPIC PID_2014 env m w = Some (0, m', w') ->
  let priv := drv_data m' in
  commit_pending priv = false /\
  frequency priv = RAZER_MOUSE_FREQ_1000HZ /\
  priv_ready priv /\
  256 <= naga_get_fw_version m' < 65536 /\
  (exists w1, naga_read_fw_ver dev (emit EvClaim w)
                = Some (naga_get_fw_version m', w1)) /\
  suggest_fwup m' =
    suggest_fwup m
    || ((idProduct env =? PID_EPIC) && (naga_get_fw_version m' <? NAGA_FW 1 4)) /\
  forall w2, naga_commit dev (set_claim_count 1 m') false w2
             = Some (0, set_claim_count 1 m', w2).
Proof.
  intros Hinit. cbv zeta.
  destruct (razer_naga_init_inv env m m' w w' Hinit)
    as (fwver & w1 & w3 & Hfw & Hpos & _ & _ & Hpriv & Hadv).
  cbv zeta in *.
  destruct (naga_init_defaults_ready PID_2014 (idProduct env) (uint16 fwver))
    as (Hready & Hpend & Hver & _ & Hfreq).
  cbv zeta in *.
  destruct (naga_read_fw_ver_run dev (emit EvClaim w))
    as (r & w1' & k & Hfw' & Hrange & _).
  rewrite Hfw in Hfw'. injection Hfw' as <- <-.
  assert (256 <= fwver < 65536) as Hr.
  { destruct Hrange as [(-> & _)|(? & _)]; [unfold ENODEV in Hpos; lia|assumption]. }
  assert (uint16 fwver = fwver) as Hu by (unfold uint16; apply Z.mod_small; lia).
  rewrite Hu in Hready, Hpend, Hver, Hfreq, Hpriv, Hadv.
  unfold naga_get_fw_version. rewrite Hpriv, Hpend, Hfreq, Hver.
  split; [reflexivity|]. split; [reflexivity|]. split; [exact Hready|].
  split; [exact Hr|].
  split; [exists w1; exact Hfw|]. split; [exact Hadv|].
  intros w2. unfold naga_commit. cbn. rewrite Hpriv, Hpend. reflexivity.
Qed.



End AttachRuns.

Lemma naga_init_dpimappings_other (slots : list nat) (priv : naga_private)
    (i : nat) :
  i ∉ slots ->
  dpimapping (naga_init_dpimappings slots priv) !! i = dpimapping priv !! i.
Proof.
  revert priv. induction slots as [|j slots IH]; intros priv Hi; [reflexivity|].
  cbn [naga_init_dpimappings].
  apply not_elem_of_cons in Hi as [Hne Hi].
  rewrite IH by exact Hi.
  destruct (_ =? 1000); cbn; now apply list_lookup_insert_ne.
Qed.

Lemma naga_init_dpimappings_length (slots : list nat) (priv : naga_private) :
  length (dpimapping (naga_init_dpimappings slots priv))
  = length (dpimapping priv).
Proof.
  revert priv. induction slots as [|j slots IH]; intros priv; [reflexivity|].
  cbn [naga_init_dpimappings]. rewrite IH.
  destruct (_ =? 1000); cbn; apply length_insert.
Qed.

Lemma naga_init_dpimappings_slot (slots : list nat) (priv : naga_private)
    (i : nat) :
  i ∈ slots -> (i < length (dpimapping priv))%nat ->
  dpimapping (naga_init_dpimappings slots priv) !! i
  = Some {| nr := Z.of_nat i; res_dim0 := (Z.of_nat i + 1) * 100;
            dimension_mask := 1 |}.
Proof.
  revert priv. induction slots as [|j slots IH]; intros priv Hi Hlen.
  - inversion Hi.
  - cbn [naga_init_dpimappings].
    destruct (decide (i ∈ slots)) as [Hin|Hnin].
    + apply IH; [exact Hin|].
      destruct (_ =? 1000); cbn; now rewrite length_insert.
    + apply elem_of_cons in Hi as [->|Hi]; [|contradiction].
      rewrite naga_init_dpimappings_other by exact Hnin.
      destruct (_ =? 1000); cbn; now apply list_lookup_insert_eq.
Qed.

Lemma naga_init_dpimappings_nb (slots : list nat) (priv : naga_private) :
  nb_dpimappings (naga_init_dpimappings slots priv) = nb_dpimappings priv.
Proof.
  revert priv. induction slots as [|j slots IH]; intros priv; [reflexivity|].
  cbn [naga_init_dpimappings]. rewrite IH. destruct (_ =? 1000); reflexivity.
Qed.

Lemma naga_init_defaults_table (P pid v : Z) :
  let priv := naga_init_defaults P pid (set_fw_version v naga_private_zero) in
  length (dpimapping priv) = NAGA_NR_DPIMAPPINGS /\
  nb_dpimappings priv
    = (if pid =? P then NAGA_8200_NR_DPIMAPPINGS
       else NAGA_5600_NR_DPIMAPPINGS) /\
  (forall i, (i < nb_dpimappings priv)%nat ->
     dpimapping priv !! i
       = Some {| nr := Z.of_nat i; res_dim0 := (Z.of_nat i + 1) * 100;
                 dimension_mask := 1 |}) /\
  (forall i, (nb_dpimappings priv <= i < NAGA_NR_DPIMAPPINGS)%nat ->
     dpimapping priv !! i = Some dpimapping_zero).
Proof.
  cbv zeta. unfold naga_init_defaults.
  destruct (pid =? P).
  all: match goal with
       | |- context [naga_init_dpimappings (seq 0 (nb_dpimappings ?p)) ?p] =>
           set (pX := p)
       end.
  all: assert (dpimapping pX = replicate NAGA_NR_DPIMAPPINGS dpimapping_zero)
    as Htab by reflexivity.
  all: rewrite naga_init_dpimappings_nb, naga_init_dpimappings_length, Htab,
         length_replicate.
  all: split; [reflexivity|]; split; [reflexivity|]; split.
  all: intros i Hi.
  1,3: apply naga_init_dpimappings_slot;
         [apply elem_of_seq; lia
         |rewrite Htab, length_replicate;
          change (nb_dpimappings pX) with 82%nat in Hi
          || change (nb_dpimappings pX) with 56%nat in Hi;
          unfold NAGA_NR_DPIMAPPINGS, NAGA_8200_NR_DPIMAPPINGS; lia].
  all: rewrite naga_init_dpimappings_other by (rewrite elem_of_seq; lia).
  all: rewrite Htab; apply lookup_replicate_2; lia.
Qed.

Section AttachTable.
Variable dev : nat -> usb_reply.
Variables PID_EPIC PID_2014 : Z.

(** X19.  After a successful attach the mapping table has its 82 entries;
    the device's slots, 82 for the 2014 product and 56 otherwise, hold their
    index and the resolution (index + 1) * 100 in the first dimension, which
    is also what [naga_supported_resolutions] lists at that index; the
    entries beyond the device's slots are still zero. *)
Theorem attach_mapping_table (env : attach_env) (m m' : razer_mouse)
    (w w' : world) :
  razer_naga_init dev PID_EPIC PID_2014 env m w = Some (0, m', w') ->
  let priv := drv_data m' in
  length (dpimapping priv) = NAGA_NR_DPIMAPPINGS /\
  nb_dpimappings priv
    = (if idProduct env =? PID_2014 then NAGA_8200_NR_DPIMAPPINGS
       else NAGA_5600_NR_DPIMAPPINGS) /\
  (forall i, (i < nb_dpimappings priv)%nat ->
     dpimapping priv !! i
       = Some {| nr := Z.of_nat i; res_dim0 := (Z.of_nat i + 1) * 100;
                 dimension_mask := 1 |} /\
     naga_supported_resolutions m' !! i = Some ((Z.of_nat i + 1) * 100)) /\
  (forall i, (nb_dpimappings priv <= i < NAGA_NR_DPIMAPPINGS)%nat ->
     dpimapping priv !! i = Some dpimapping_zero) /\
  length (naga_supported_resolutions m') = nb_dpimappings priv.
Proof.
  intros Hinit. cbv zeta.
  destruct (razer_naga_init_success dev PID_EPIC PID_2014 env m m' w w' Hinit)
    as (fwver & Hpriv & _).
  destruct (naga_init_defaults_table PID_2014 (idProduct env) (uint16 fwver))
    as (Hlen & Hnb & Hslots & Hrest).
  cbv zeta in *. rewrite <- Hpriv in Hlen, Hnb, Hslots, Hrest.
  unfold naga_supported_resolutions. rewrite length_fmap, length_seq.
  split; [exact Hlen|]. split; [exact Hnb|].
  split; [|split; [exact Hrest|reflexivity]].
  intros i Hi. split; [now apply Hslots|].
  rewrite list_lookup_fmap, lookup_seq_lt by exact Hi. reflexivity.
Qed.

End AttachTable.

Lemma attach_always_returns_witness :
  (exists m' w',
     razer_naga_init sample_dev_ok SAMPLE_PID_EPIC SAMPLE_PID_2014
       {| desc_err := 0; idProduct := SAMPLE_PID_HEX; zalloc_ok := true;
          add_used_interface_err := 0; claim_err := -6 |}
       (sample_mouse 0 naga_private_zero) world0 = Some (-6, m', w') /\
     claim_count m' = 0%nat /\
     w' = emit EvFree (emit (EvError "hw_naga: Failed to claim device") world0)) /\
  (exists m' w',
     razer_naga_init sample_dev_ok SAMPLE_PID_EPIC SAMPLE_PID_2014
       {| desc_err := 0; idProduct := SAMPLE_PID_HEX; zalloc_ok := false;
          add_used_interface_err := 0; claim_err := 0 |}
       (sample_mouse 0 naga_private_zero) world0 = Some (- ENOMEM, m', w') /\
     w' = world0).
Proof.
  split.
  - destruct (attach_always_returns sample_dev_ok SAMPLE_PID_EPIC SAMPLE_PID_2014
                {| desc_err := 0; idProduct := SAMPLE_PID_HEX; zalloc_ok := true;
                   add_used_interface_err := 0; claim_err := -6 |}
                (sample_mouse 0 naga_private_zero) world0)
      as (err & m' & w' & Hrun & Hc & _ & _ & _ & D & _).
    destruct (D eq_refl eq_refl eq_refl ltac:(discriminate)) as [-> ->].
    eexists _, _. split; [exact Hrun|]. split; [exact Hc|reflexivity].
  - destruct (attach_always_returns sample_dev_ok SAMPLE_PID_EPIC SAMPLE_PID_2014
                {| desc_err := 0; idProduct := SAMPLE_PID_HEX; zalloc_ok := false;
                   add_used_interface_err := 0; claim_err := 0 |}
                (sample_mouse 0 naga_private_zero) world0)
      as (err & m' & w' & Hrun & Hc & _ & B & _).
    destruct (B eq_refl eq_refl) as (-> & -> & ->).
    eexists _, _. split; [exact Hrun|reflexivity].
Defined.

Lemma attach_result_state_witness :
  exists m' w',
    razer_naga_init sample_dev_old SAMPLE_PID_EPIC SAMPLE_PID_2014
      (sample_env SAMPLE_PID_EPIC) (sample_mouse 0 naga_private_zero) world0
      = Some (0, m', w') /\
    commit_pending (drv_data m') = false /\
    naga_get_fw_version m' = 258 /\
    suggest_fwup m' = true.
Proof.
  eassert (razer_naga_init sample_dev_old SAMPLE_PID_EPIC SAMPLE_PID_2014
             (sample_env SAMPLE_PID_EPIC) (sample_mouse 0 naga_private_zero)
             world0 = Some (0, _, _)) as H by (vm_compute; reflexivity).
  destruct (attach_result_state sample_dev_old SAMPLE_PID_EPIC SAMPLE_PID_2014
              _ _ _ _ _ H) as (A & _ & _ & _ & _ & C & _).
  eexists _, _. split; [exact H|]. split; [exact A|].
  split; [vm_compute; reflexivity|].
  rewrite C. vm_compute. reflexivity.
Defined.


Lemma attach_mapping_table_witness :
  exists m' w',
    razer_naga_init sample_dev_ok SAMPLE_PID_EPIC SAMPLE_PID_2014
      (sample_env SAMPLE_PID_CLASSIC) (sample_mouse 0 naga_private_zero) world0
      = Some (0, m', w') /\
    nb_dpimappings (drv_data m') = 56%nat /\
    dpimapping (drv_data m') !! 55%nat
      = Some {| nr := 55; res_dim0 := 5600; dimension_mask := 1 |} /\
    dpimapping (drv_data m') !! 56%nat = Some dpimapping_zero.
Proof.
  eassert (razer_naga_init sample_dev_ok SAMPLE_PID_EPIC SAMPLE_PID_2014
             (sample_env SAMPLE_PID_CLASSIC) (sample_mouse 0 naga_private_zero)
             world0 = Some (0, _, _)) as H by (vm_compute; reflexivity).
  destruct (attach_mapping_table sample_dev_ok SAMPLE_PID_EPIC SAMPLE_PID_2014
              _ _ _ _ _ H) as (_ & Hnb & A & B & _).
  assert (nb_dpimappings (drv_data _) = 56%nat) as Hn by exact Hnb.
  eexists _, _. split; [exact H|]. split; [exact Hn|]. split.
  - apply (A 55%nat). rewrite Hn. lia.
  - apply B. rewrite Hn. unfold NAGA_NR_DPIMAPPINGS, NAGA_8200_NR_DPIMAPPINGS. lia.
Defined.

(** ** LED enumeration and the builders out of range *)

Lemma get_leds_loop_all (priv : naga_private) (zalloc_ok : nat -> bool)
    (ids : list nat) (nb : nat) (acc : list razer_led) :
  let sup := omap (fun led_id =>
                     st ← led_states priv !! led_id;
                     if st =? RAZER_LED_UNKNOWN then None
                     else Some {| led_name := naga_leds_name led_id;
                                  led_id_of := led_id;
                                  led_state := st |}) ids in
  (forall id, id ∈ ids -> (id < length (led_states priv))%nat) ->
  (forall j, (nb <= j < nb + length sup)%nat -> zalloc_ok j = true) ->
  naga_get_leds_loop priv zalloc_ok ids nb acc
  = Some (Z.of_nat (nb + length sup), rev sup ++ acc).
Proof.
  cbv zeta. revert nb acc.
  induction ids as [|id ids IH]; intros nb acc Hids Hok.
  - cbn. now rewrite Nat.add_0_r.
  - assert (forall id' : nat, id' ∈ ids -> (id' < length (led_states priv))%nat)
      as Hids' by (intros; apply Hids; now right).
    destruct (lookup_lt_is_Some_2 (led_states priv) id) as [st Hst];
      [apply Hids; left|].
    cbn [naga_get_leds_loop omap list_omap]. rewrite Hst.
    cbn [mbind option_bind]. rewrite (Z.eqb_sym RAZER_LED_UNKNOWN st).
    cbn [omap list_omap] in Hok. rewrite Hst in Hok. cbn [mbind option_bind] in Hok.
    destruct (st =? RAZER_LED_UNKNOWN).
    + now apply IH.
    + cbn [length] in Hok. rewrite (Hok nb) by lia. cbn [negb].
      rewrite IH; [|exact Hids'|intros j Hj; apply Hok; lia].
      cbn [rev length]. rewrite <- app_assoc. cbn [app].
      do 3 f_equal. lia.
Qed.

Lemma get_leds_loop_enomem (priv : naga_private) (zalloc_ok : nat -> bool)
    (ids : list nat) (nb k : nat) (acc : list razer_led) :
  let sup := omap (fun led_id =>
                     st ← led_states priv !! led_id;
                     if st =? RAZER_LED_UNKNOWN then None
                     else Some {| led_name := naga_leds_name led_id;
                                  led_id_of := led_id;
                                  led_state := st |}) ids in
  (forall id, id ∈ ids -> (id < length (led_states priv))%nat) ->
  (forall j, (nb <= j < k)%nat -> zalloc_ok j = true) ->
  zalloc_ok k = false ->
  (nb <= k < nb + length sup)%nat ->
  naga_get_leds_loop priv zalloc_ok ids nb acc
  = Some (- ENOMEM, rev (take (k - nb) sup) ++ acc).
Proof.
  cbv zeta. revert nb acc.
  induction ids as [|id ids IH]; intros nb acc Hids Hok Hfail Hk.
  - cbn in Hk. lia.
  - assert (forall id' : nat, id' ∈ ids -> (id' < length (led_states priv))%nat)
      as Hids' by (intros; apply Hids; now right).
    destruct (lookup_lt_is_Some_2 (led_states priv) id) as [st Hst];
      [apply Hids; left|].
    cbn [naga_get_leds_loop omap list_omap]. rewrite Hst.
    cbn [mbind option_bind]. rewrite (Z.eqb_sym RAZER_LED_UNKNOWN st).
    cbn [omap list_omap] in Hk. rewrite Hst in Hk. cbn [mbind option_bind] in Hk.
    destruct (st =? RAZER_LED_UNKNOWN).
    + now apply IH.
    + cbn [length] in Hk.
      destruct (Nat.eq_dec k nb) as [->|Hne].
      * rewrite Hfail. cbn [negb]. now rewrite Nat.sub_diag.
      * rewrite (Hok nb) by lia. cbn [negb].
        rewrite IH; [|exact Hids'|intros j Hj; apply Hok; lia|exact Hfail|lia].
        replace (k - nb)%nat with (S (k - S nb)) by lia.
        cbn [take rev]. rewrite <- app_assoc. reflexivity.
Qed.

(** X20.  [naga_get_leds] lists the LEDs whose state is not the
    unsupported sentinel, each with its name, id and current state, the
    highest id first (every node is linked in front), and returns their
    number; it never allocates for a LED the model lacks.  When an
    allocation fails it returns [-ENOMEM] and leaves behind the nodes built
    so far. *)
Theorem naga_get_leds_result (m : razer_mouse) (zalloc_ok : nat -> bool) :
  length (led_states (drv_data m)) = NAGA_NR_LEDS ->
  let sup := supported_leds (drv_data m) in
  ((forall j, (j < length sup)%nat -> zalloc_ok j = true) ->
   naga_get_leds m zalloc_ok = Some (Z.of_nat (length sup), rev sup)) /\
  (forall k, (forall j, (j < k)%nat -> zalloc_ok j = true) ->
     zalloc_ok k = false -> (k < length sup)%nat ->
     naga_get_leds m zalloc_ok = Some (- ENOMEM, rev (take k sup))) /\
  (forall led, led ∈ sup <->
     exists st, led_states (drv_data m) !! led_id_of led = Some st /\
       st <> RAZER_LED_UNKNOWN /\
       led = {| led_name := naga_leds_name (led_id_of led);
                led_id_of := led_id_of led; led_state := st |}) /\
  (length sup <= NAGA_NR_LEDS)%nat.
Proof.
  intros Hlen. cbv zeta.
  assert (forall id, id ∈ seq 0 NAGA_NR_LEDS ->
            (id < length (led_states (drv_data m)))%nat) as Hids.
  { intros id Hid. rewrite Hlen. apply elem_of_seq in Hid. lia. }
  split; [|split; [|split]].
  - intros Hok. unfold naga_get_leds, supported_leds in *.
    rewrite get_leds_loop_all; [|exact Hids|intros j Hj; apply Hok; lia].
    rewrite app_nil_r. reflexivity.
  - intros k Hok Hfail Hk. unfold naga_get_leds, supported_leds in *.
    rewrite (get_leds_loop_enomem _ _ _ 0 k);
      [|exact Hids|intros j Hj; apply Hok; lia|exact Hfail|lia].
    rewrite app_nil_r, Nat.sub_0_r. reflexivity.
  - intros led. unfold supported_leds. rewrite list_elem_of_omap. split.
    + intros (id & _ & Hf).
      destruct (led_states (drv_data m) !! id) as [st|] eqn:Hst; [|discriminate].
      cbn [mbind option_bind] in Hf.
      destruct (Z.eqb_spec st RAZER_LED_UNKNOWN) as [|Hne]; [discriminate|].
      injection Hf as <-. cbn [led_id_of]. exists st. auto.
    + intros (st & Hst & Hne & Hled). exists (led_id_of led). split.
      * apply elem_of_seq. apply lookup_lt_Some in Hst. lia.
      * rewrite Hst. cbn [mbind option_bind].
        destruct (Z.eqb_spec st RAZER_LED_UNKNOWN); [contradiction|].
        now rewrite <- Hled.
  - unfold supported_leds.
    transitivity (length (seq 0 NAGA_NR_LEDS)); [|now rewrite length_seq].
    generalize (seq 0 NAGA_NR_LEDS). intros ids.
    induction ids as [|i ids IH]; [reflexivity|]. cbn [omap list_omap].
    destruct (_ ≫= _); cbn [length]; lia.
Qed.

Lemma naga_get_leds_result_witness :
  let m := sample_mouse 0 (sample_priv SAMPLE_PID_CLASSIC) in
  naga_get_leds m (fun _ => true)
    = Some (2, [{| led_name := "GlowingLogo"; led_id_of := 1; led_state := 1 |};
                {| led_name := "Scrollwheel"; led_id_of := 0; led_state := 1 |}]) /\
  naga_get_leds m (fun k => negb (k =? 1)%nat)
    = Some (- ENOMEM,
            [{| led_name := "Scrollwheel"; led_id_of := 0; led_state := 1 |}]).
Proof.
  cbv zeta.
  destruct (naga_get_leds_result (sample_mouse 0 (sample_priv SAMPLE_PID_CLASSIC))
              (fun _ => true)) as (A & _); [vm_compute; reflexivity|].
  destruct (naga_get_leds_result (sample_mouse 0 (sample_priv SAMPLE_PID_CLASSIC))
              (fun k => negb (k =? 1)%nat)) as (_ & B & _);
    [vm_compute; reflexivity|].
  split.
  - rewrite A by reflexivity. vm_compute. reflexivity.
  - rewrite (B 1%nat).
    + vm_compute. reflexivity.
    + intros j Hj. destruct j; [reflexivity|lia].
    + reflexivity.
    + vm_compute. lia.
Defined.

Lemma cpu_to_be16_trunc (r : Z) :
  cpu_to_be16 r = [(r / 256) mod 256; r mod 256].
Proof.
  unfold cpu_to_be16. change 255 with (Z.ones 8).
  rewrite !Z.land_ones by lia. rewrite Z.shiftr_div_pow2 by lia. reflexivity.
Qed.

(** X21.  Outside the ranges of C3 the builders wrap.  The scaled builder
    computes in unsigned 32 bits and stores into a byte: a resolution below
    100 gives the byte 252, and from 100 on the byte is
    [((dpi / 100) - 1) * 4] modulo 256, so that 6500 encodes like 100.  The
    raw builder keeps the low 16 bits of the resolution. *)
Theorem resolution_encoding_wraps (priv : naga_private) (rx ry : Z) :
  cur_res priv (cur_dpimapping_X priv) = Some rx ->
  cur_res priv (cur_dpimapping_Y priv) = Some ry ->
  0 <= rx < 4294967296 -> 0 <= ry < 4294967296 ->
  let scaled r := if r <? 100 then 252 else ((r / 100 - 1) * 4) mod 256 in
  (exists cmd, naga_command_init_resolution_5600 priv = Some cmd /\
     cmd_values cmd = [scaled rx; scaled ry; 0; 0; 0]) /\
  (exists cmd, naga_command_init_resolution_8200 priv = Some cmd /\
     be16_to_cpu (take 2 (drop 1 (cmd_values cmd))) = rx mod 65536 /\
     be16_to_cpu (take 2 (drop 3 (cmd_values cmd))) = ry mod 65536).
Proof.
  intros HX HY Hrx Hry. cbv zeta.
  assert (forall r, 0 <= r < 4294967296 ->
            uint8 (uint32 ((uint32 (uint32 r / 100) - 1) * 4))
            = if r <? 100 then 252 else ((r / 100 - 1) * 4) mod 256) as Hsc.
  { intros r Hr. unfold uint8, uint32.
    rewrite (Z.mod_small r) by lia.
    assert (0 <= r / 100 < 42949673) as Hq.
    { split; [apply Z.div_pos; lia | apply Z.div_lt_upper_bound; lia]. }
    rewrite (Z.mod_small (r / 100)) by lia.
    destruct (Z.ltb_spec r 100) as [Hlt|Hge].
    - rewrite (Z.div_small r 100) by lia. reflexivity.
    - assert (1 <= r / 100) by (apply Z.div_le_lower_bound; lia).
      rewrite (Z.mod_small ((r / 100 - 1) * 4)) by lia. reflexivity. }
  assert (forall r, 0 <= r ->
            be16_to_cpu [(r / 256) mod 256; r mod 256] = r mod 65536) as Hraw.
  { intros r Hr. rewrite be16_to_cpu_bytes.
    - pose proof (Z.div_mod r 256 ltac:(lia)).
      pose proof (Z.div_mod (r / 256) 256 ltac:(lia)).
      pose proof (Z.mod_pos_bound r 256 ltac:(lia)).
      pose proof (Z.mod_pos_bound (r / 256) 256 ltac:(lia)).
      apply Z.mod_unique_pos with (q := r / 256 / 256); lia.
    - apply Z.mod_pos_bound. lia.
    - apply Z.mod_pos_bound. lia. }
  split.
  - unfold naga_command_init_resolution_5600. rewrite HX, HY.
    eexists. split; [reflexivity|].
    rewrite values_5600 by reflexivity. now rewrite !Hsc.
  - unfold naga_command_init_resolution_8200. rewrite HX, HY.
    eexists. split; [reflexivity|].
    rewrite !cpu_to_be16_trunc. rewrite values_8200 by reflexivity.
    cbn [drop take]. rewrite !Hraw by lia. auto.
Qed.

Lemma resolution_encoding_wraps_witness :
  let p := set_dpimapping_slot 60
             {| nr := 60; res_dim0 := 6500; dimension_mask := 1 |}
             (set_cur_dpimapping_Y (Some 70%nat)
                (set_cur_dpimapping_X (Some 60%nat)
                   (sample_priv SAMPLE_PID_CLASSIC))) in
  exists cmd, naga_command_init_resolution_5600 p = Some cmd /\
    cmd_values cmd = [0; 252; 0; 0; 0].
Proof.
  cbv zeta.
  destruct (resolution_encoding_wraps
              (set_dpimapping_slot 60
                 {| nr := 60; res_dim0 := 6500; dimension_mask := 1 |}
                 (set_cur_dpimapping_Y (Some 70%nat)
                    (set_cur_dpimapping_X (Some 60%nat)
                       (sample_priv SAMPLE_PID_CLASSIC))))
              6500 0) as (A & _).
  - vm_compute. reflexivity.
  - vm_compute. reflexivity.
  - lia.
  - lia.
  - exact A.
Defined.

Lemma naga_led_toggle_success (m m' : razer_mouse) (led_id : nat)
    (new_state : Z) :
  naga_led_toggle m led_id new_state = Some (0, m') ->
  new_state <> RAZER_LED_UNKNOWN /\
  led_states (drv_data m') !! led_id = Some new_state /\
  length (led_states (drv_data m')) = length (led_states (drv_data m)).
Proof.
  unfold naga_led_toggle.
  destruct (NAGA_NR_LEDS <=? led_id)%nat; [discriminate|].
  destruct (Z.eqb_spec new_state RAZER_LED_OFF) as [Hoff|Hoff];
    destruct (Z.eqb_spec new_state RAZER_LED_ON) as [Hon|Hon]; cbn [negb andb];
    try discriminate.
  all: destruct (led_states (drv_data m) !! led_id) as [st|] eqn:Hst;
    [|discriminate]; cbn [mbind option_bind].
  all: destruct (st =? RAZER_LED_UNKNOWN); [discriminate|].
  all: destruct (claim_count m =? 0)%nat; [discriminate|].
  all: intros [= <-].
  all: cbn [drv_data set_drv_data led_states set_commit_pending set_led_state].
  all: split; [unfold RAZER_LED_UNKNOWN, RAZER_LED_OFF, RAZER_LED_ON in *; lia|].
  all: split; [apply list_lookup_insert_eq; now apply lookup_lt_Some with st
              |apply length_insert].
Qed.

(** X22.  A LED toggle that succeeded shows in the enumeration: when the
    allocations succeed, [naga_get_leds] on the new state lists that LED
    under its name with the state just set, and lists no other entry for its
    id. *)
Theorem led_toggle_shows_in_enumeration (m m' : razer_mouse) (led_id : nat)
    (new_state : Z) (zalloc_ok : nat -> bool) :
  length (led_states (drv_data m)) = NAGA_NR_LEDS ->
  (forall j, zalloc_ok j = true) ->
  naga_led_toggle m led_id new_state = Some (0, m') ->
  exists n leds,
    naga_get_leds m' zalloc_ok = Some (Z.of_nat n, leds) /\
    length leds = n /\
    {| led_name := naga_leds_name led_id; led_id_of := led_id;
       led_state := new_state |} ∈ leds /\
    (forall led, led ∈ leds -> led_id_of led = led_id ->
       led_state led = new_state).
Proof.
  intros Hlen Hok Htoggle.
  destruct (naga_led_toggle_success m m' led_id new_state Htoggle)
    as (Hne & Hnew & Hlen').
  assert (forall id, id ∈ seq 0 NAGA_NR_LEDS ->
            (id < length (led_states (drv_data m')))%nat) as Hids.
  { intros id Hid. rewrite Hlen', Hlen. apply elem_of_seq in Hid. lia. }
  exists (length (supported_leds (drv_data m'))), (rev (supported_leds (drv_data m'))).
  split.
  { unfold naga_get_leds, supported_leds.
    rewrite get_leds_loop_all; [|exact Hids|intros j _; apply Hok].
    rewrite app_nil_r. reflexivity. }
  split; [apply length_rev|].
  split.
  - apply list_elem_of_In, in_rev, list_elem_of_In. rewrite rev_involutive. unfold supported_leds. apply list_elem_of_omap.
    exists led_id. split.
    + apply elem_of_seq. apply lookup_lt_Some in Hnew. rewrite Hlen', Hlen in Hnew.
      lia.
    + rewrite Hnew. cbn [mbind option_bind].
      destruct (Z.eqb_spec new_state RAZER_LED_UNKNOWN); [contradiction|reflexivity].
  - intros led Hin Hid. apply list_elem_of_In, in_rev, list_elem_of_In in Hin.
    unfold supported_leds in Hin. apply list_elem_of_omap in Hin as (id & _ & Hf).
    destruct (led_states (drv_data m') !! id) as [st|] eqn:Hst; [|discriminate].
    cbn [mbind option_bind] in Hf.
    destruct (st =? RAZER_LED_UNKNOWN); [discriminate|].
    injection Hf as <-. cbn [led_id_of led_state] in *. subst id.
    rewrite Hnew in Hst. now injection Hst.
Qed.

Lemma led_toggle_shows_in_enumeration_witness :
  let m := sample_mouse 1 (sample_priv SAMPLE_PID_2014) in
  exists m' n leds,
    naga_led_toggle m NAGA_LED_THUMB_GRID RAZER_LED_OFF = Some (0, m') /\
    naga_get_leds m' (fun _ => true) = Some (Z.of_nat n, leds) /\
    length leds = n /\
    {| led_name := "ThumbGrid"; led_id_of := 2; led_state := 0 |} ∈ leds.
Proof.
  cbv zeta.
  eassert (naga_led_toggle (sample_mouse 1 (sample_priv SAMPLE_PID_2014))
             NAGA_LED_THUMB_GRID RAZER_LED_OFF = Some (0, _)) as H
    by (vm_compute; reflexivity).
  destruct (led_toggle_shows_in_enumeration
              (sample_mouse 1 (sample_priv SAMPLE_PID_2014)) _
              NAGA_LED_THUMB_GRID RAZER_LED_OFF (fun _ => true)
              ltac:(vm_compute; reflexivity) ltac:(reflexivity) H)
    as (n & leds & A & B & C & _).
  eexists. exists n, leds. split; [exact H|]. split; [exact A|]. split; [exact B|].
  exact C.
Defined.
